(** * image-stitcher: the command-line front end [stitcher_cli.py]

    A shallow embedding of the coordinate normaliser
    ([process_coordinates_file]), of the parameter construction
    ([create_params]) and of the orchestrator ([main]), with the properties
    the specification states about them.

    Conventions of the embedding.
    - A pandas integer column is [int64]: integers are [Z] and every
      arithmetic step on a column is followed by [Int64.wrap].
    - Python exceptions are values: a computation returns [Ok v] or
      [Raise e], sequenced with [x <- c ;; k].
    - The file system is explicit state: a finite map from paths to file
      contents and a finite set of directories.
    - Library functions ([int], [repr], [DataFrame.astype], [os.path.join])
      are modelled next to the code that calls them, each with a comment
      saying what is covered. *)

From Stdlib Require Import ZArith QArith_base Ascii String List Bool Lia.
From Stdlib Require DecimalString DecimalZ DecimalPos.
From stdpp Require Import gmap strings.
Import ListNotations.

(* ===================================================================== *)
(** ** Signed 64-bit integers *)
(* ===================================================================== *)

Module Int64.
Local Open Scope Z_scope.

Definition min_int : Z := - 2 ^ 63.
Definition max_int : Z := 2 ^ 63 - 1.
Definition modulus : Z := 2 ^ 64.

Definition in_range (z : Z) : Prop := min_int <= z <= max_int.
Definition in_rangeb (z : Z) : bool := (min_int <=? z) && (z <=? max_int).

(** Two's complement wrap-around, as numpy does it on [int64] arrays. *)
Definition wrap (z : Z) : Z := (z + 2 ^ 63) mod modulus - 2 ^ 63.
End Int64.

(* ===================================================================== *)
(** ** Python exceptions and results *)
(* ===================================================================== *)

(** The exception classes that the program, pandas or the interpreter can
    raise on the paths modelled here, with the parents they have in Python. *)
Inductive exn_kind :=
| BaseException | Exception
| TypeError | ValueError | IntCastingNaNError | ParserError
| ArithmeticError | OverflowError
| LookupError | KeyError
| OSError | FileNotFoundError | IsADirectoryError
| RuntimeError | ConfigError
| KeyboardInterrupt | SystemExit.

Definition parent (k : exn_kind) : option exn_kind :=
  match k with
  | BaseException => None
  | Exception | KeyboardInterrupt | SystemExit => Some BaseException
  | TypeError | ValueError | ArithmeticError | LookupError
  | OSError | RuntimeError | ConfigError => Some Exception
  | IntCastingNaNError | ParserError => Some ValueError
  | OverflowError => Some ArithmeticError
  | KeyError => Some LookupError
  | FileNotFoundError | IsADirectoryError => Some OSError
  end.

Definition exn_kind_eqb (a b : exn_kind) : bool :=
  match a, b with
  | BaseException, BaseException | Exception, Exception
  | TypeError, TypeError | ValueError, ValueError
  | IntCastingNaNError, IntCastingNaNError | ParserError, ParserError
  | ArithmeticError, ArithmeticError | OverflowError, OverflowError
  | LookupError, LookupError | KeyError, KeyError
  | OSError, OSError | FileNotFoundError, FileNotFoundError
  | IsADirectoryError, IsADirectoryError
  | RuntimeError, RuntimeError | ConfigError, ConfigError
  | KeyboardInterrupt, KeyboardInterrupt | SystemExit, SystemExit => true
  | _, _ => false
  end.

(** [isinstance_of k c]: an exception of class [k] is an instance of class
    [c], that is [c] is [k] or one of its ancestors.  The hierarchy above has
    depth three, so three steps up reach [BaseException]. *)
Fixpoint ancestors (fuel : nat) (k : exn_kind) : list exn_kind :=
  k :: match fuel, parent k with
       | S n, Some p => ancestors n p
       | _, _ => []
       end.

Definition isinstance_of (k c : exn_kind) : bool :=
  existsb (exn_kind_eqb c) (ancestors 3 k).

Record exn := mk_exn { kind : exn_kind; message : string }.

Inductive result (A : Type) :=
| Ok (a : A)
| Raise (e : exn).
Arguments Ok {A} a.
Arguments Raise {A} e.

Definition bind {A B} (c : result A) (k : A -> result B) : result B :=
  match c with
  | Ok a => k a
  | Raise e => Raise e
  end.

Declare Scope py_scope.
Delimit Scope py_scope with py.
Notation "x <- c ;; k" := (bind c (fun x => k))
  (at level 100, c at next level, right associativity) : py_scope.
Notation "c ;;; k" := (bind c (fun _ => k))
  (at level 100, right associativity) : py_scope.

Fixpoint mapR {A B} (f : A -> result B) (l : list A) : result (list B) :=
  match l with
  | [] => Ok []
  | a :: l' =>
      match f a with
      | Raise e => Raise e
      | Ok b =>
          match mapR f l' with
          | Raise e => Raise e
          | Ok bs => Ok (b :: bs)
          end
      end
  end.

(* ===================================================================== *)
(** ** Python built-ins used by the program *)
(* ===================================================================== *)

Module Py.
Local Open Scope Z_scope.

(** [str(n)] for an integer, as an f-string renders it. *)
Definition str_int (z : Z) : string :=
  DecimalString.NilZero.string_of_int (Z.to_int z).

Definition code (c : ascii) : nat := nat_of_ascii c.

(** White space that [int] strips.  Only the ASCII range is modelled. *)
Definition is_space (c : ascii) : bool :=
  let n := code c in
  ((9 <=? n) && (n <=? 13) || (28 <=? n) && (n <=? 32))%nat.

Definition digit_of (c : ascii) : option Z :=
  let n := code c in
  if ((48 <=? n) && (n <=? 57))%nat then Some (Z.of_nat n - 48) else None.

Fixpoint lstrip (s : string) : string :=
  match s with
  | String c r => if is_space c then lstrip r else s
  | EmptyString => EmptyString
  end.

Definition strip (s : string) : string :=
  String.rev (lstrip (String.rev (lstrip s))).

(** Decimal digits with single underscores between them, as [int]
    accepts them.  [prev] tells whether the previous character was a
    digit. *)
Fixpoint digits (s : string) (acc : Z) (prev : bool) : option Z :=
  match s with
  | EmptyString => if prev then Some acc else None
  | String c r =>
      match digit_of c with
      | Some d => digits r (10 * acc + d) true
      | None =>
          if (code c =? 95)%nat && prev then digits r acc false else None
      end
  end.

(** [int(s)] on a string, base 10: optional surrounding white space, an
    optional sign, then the digits.  [None] stands for the [ValueError]
    that [int] raises.  Digits outside ASCII are not modelled. *)
Definition int_of_str (s : string) : option Z :=
  match strip s with
  | String c r =>
      if (code c =? 45)%nat then option_map Z.opp (digits r 0 false)
      else if (code c =? 43)%nat then digits r 0 false
      else digits (String c r) 0 false
  | EmptyString => None
  end.

Definition hex_digit (n : nat) : ascii :=
  ascii_of_nat (if (n <? 10)%nat then 48 + n else 87 + n)%nat.

Definition quote : ascii := ascii_of_nat 39.
Definition dquote : ascii := ascii_of_nat 34.
Definition backslash : ascii := ascii_of_nat 92.

Fixpoint contains_char (c : ascii) (s : string) : bool :=
  match s with
  | EmptyString => false
  | String d r => Ascii.eqb c d || contains_char c r
  end.

Fixpoint escape (q : ascii) (s : string) : string :=
  match s with
  | EmptyString => EmptyString
  | String c r =>
      let n := code c in
      let rest := escape q r in
      if Ascii.eqb c backslash || Ascii.eqb c q
      then String backslash (String c rest)
      else if (n =? 10)%nat then String backslash (String "n" rest)
      else if (n =? 13)%nat then String backslash (String "r" rest)
      else if (n =? 9)%nat then String backslash (String "t" rest)
      else if (n <? 32)%nat || (n =? 127)%nat
      then String backslash (String "x"
             (String (hex_digit (n / 16)) (String (hex_digit (n mod 16)) rest)))
      else String c rest
  end.

(** [repr(s)] of a string: single quotes unless the string holds a single
    quote and no double quote. *)
Definition repr (s : string) : string :=
  let q := if contains_char quote s && negb (contains_char dquote s)
           then dquote else quote in
  String q (escape q s) +:+ String q EmptyString.
End Py.

(* ===================================================================== *)
(** ** Data frames *)
(* ===================================================================== *)

(** One cell of a table read by [pandas.read_csv]: an [int64] entry, a
    finite [float64] entry (its exact rational value), the missing-value
    marker, or a string in a column of dtype [object].  Infinities are not
    modelled. *)
Inductive cell :=
| Int (z : Z)
| Flt (q : Q)
| NaN
| Str (s : string).

(** A data frame, column by column, in column order.  In a frame that
    pandas builds, the names are distinct and the columns have one length
    ([wf_df]). *)
Definition DataFrame := list (string * list cell).


Definition nrows (df : DataFrame) : nat :=
  match df with
  | [] => 0
  | (_, c) :: _ => length c
  end.

Definition wf_df (df : DataFrame) : Prop :=
  Forall (fun nc => length (snd nc) = nrows df) df.

Fixpoint lookup_col (c : string) (df : DataFrame) : option (list cell) :=
  match df with
  | [] => None
  | (n, v) :: df' => if String.eqb c n then Some v else lookup_col c df'
  end.

(** [c in df.columns] *)
Definition has_column (df : DataFrame) (c : string) : bool :=
  match lookup_col c df with Some _ => true | None => false end.

(** [df[c]]: a [KeyError] when the column is absent. *)
Definition getitem (df : DataFrame) (c : string) : result (list cell) :=
  match lookup_col c df with
  | Some v => Ok v
  | None => Raise (mk_exn KeyError (Py.repr c))
  end.

(** [df[c] = v]: replaces the column in place, or appends a new one. *)
Fixpoint setitem (df : DataFrame) (c : string) (v : list cell) : DataFrame :=
  match df with
  | [] => [(c, v)]
  | (n, w) :: df' =>
      if String.eqb c n then (n, v) :: df' else (n, w) :: setitem df' c v
  end.

Module Series.
Local Open Scope Z_scope.

(** [s.fillna(0)] *)
Definition fillna0 (s : list cell) : list cell :=
  map (fun c => match c with NaN => Int 0 | _ => c end) s.

Definition is_str (c : cell) : bool :=
  match c with Str _ => true | _ => false end.
Definition is_nan (c : cell) : bool :=
  match c with NaN => true | _ => false end.

(** A column that holds a string has dtype [object]. *)
Definition is_object (s : list cell) : bool := existsb is_str s.

(** A float converted to an integer is cut toward zero. *)
Definition trunc (q : Q) : Z := Z.quot (Qnum q) (Z.pos (Qden q)).

Definition nonfinite_error : exn :=
  mk_exn IntCastingNaNError
         "Cannot convert non-finite values (NA or inf) to integer".

Definition too_large_error : exn :=
  mk_exn OverflowError "Python int too large to convert to C long".

Definition to_c_long (z : Z) : result Z :=
  if Int64.in_rangeb z then Ok z else Raise too_large_error.

(** One element of an [object] column: numpy calls [int] on it and
    stores the result as a C long. *)
Definition int_of_object (c : cell) : result Z :=
  match c with
  | Int z => to_c_long z
  | Flt q => to_c_long (trunc q)
  | NaN => Raise (mk_exn ValueError "cannot convert float NaN to integer")
  | Str s =>
      match Py.int_of_str s with
      | Some z => to_c_long z
      | None =>
          Raise (mk_exn ValueError
                   ("invalid literal for int() with base 10: " +:+ Py.repr s))
      end
  end.

(** One element of a numeric column.  A float outside the [int64] range
    is cast by the hardware; the value below is what x86-64 gives. *)
Definition int_of_number (c : cell) : Z :=
  match c with
  | Int z => z
  | Flt q => if Int64.in_rangeb (trunc q) then trunc q else Int64.min_int
  | NaN | Str _ => 0
  end.

(** [s.astype(int)].  An [object] column is converted element by
    element, and the first element that fails raises.  A numeric column
    is refused as a whole when it holds a missing value, and is cut to
    integers otherwise: no error for a fractional value. *)
Definition astype_int (s : list cell) : result (list Z) :=
  if is_object s then mapR int_of_object s
  else if existsb is_nan s then Raise nonfinite_error
  else Ok (map int_of_number s).

Fixpoint max_from (m : Z) (s : list Z) : Z :=
  match s with
  | [] => m
  | z :: s' => max_from (Z.max m z) s'
  end.

(** [s.max()] of an integer column: [None] is the NaN that pandas
    returns for an empty column. *)
Definition max (s : list Z) : option Z :=
  match s with
  | [] => None
  | z :: s' => Some (max_from z s')
  end.
End Series.

(* ===================================================================== *)
(** ** The coordinate normaliser *)
(* ===================================================================== *)

Local Open Scope py_scope.

Definition required_columns : list string :=
  ["region"; "i"; "j"; "z_level"; "x (mm)"; "y (mm)"; "z (um)"].

Definition missing_column_error (col : string) : exn :=
  mk_exn ValueError
         ("Missing required column '" +:+ col +:+ "' in coordinates.csv").

(** The loop over [required_columns]: the first absent one raises. *)
Fixpoint check_columns (df : DataFrame) (cols : list string) : result unit :=
  match cols with
  | [] => Ok tt
  | col :: cols' =>
      if has_column df col then check_columns df cols'
      else Raise (missing_column_error col)
  end.

(** [max_j = df['j'].max() + 1]: an [int64] scalar, or NaN for a table
    without rows. *)
Definition max_j_of (js : list Z) : option Z :=
  option_map (fun m => Int64.wrap (m + 1)%Z) (Series.max js).

(** [df['i'] * max_j + df['j']], element by element on [int64]. *)
Definition fov_of (max_j : option Z) (i j : Z) : cell :=
  match max_j with
  | Some m => Int (Int64.wrap (Int64.wrap (i * m) + j))
  | None => NaN
  end.

Fixpoint zip_with {A B C} (f : A -> B -> C) (l : list A) (l' : list B) : list C :=
  match l, l' with
  | a :: t, b :: t' => f a b :: zip_with f t t'
  | _, _ => []
  end.

Definition fov_column (is_ js : list Z) : list cell :=
  zip_with (fov_of (max_j_of js)) is_ js.

(** Lines 112 to 135 of [process_coordinates_file]: from the frame read
    from [coordinates.csv] to the frame that is written. *)
Definition normalize (df : DataFrame) : result DataFrame :=
  check_columns df required_columns ;;;
  j0 <- getitem df "j" ;;
  js <- Series.astype_int (Series.fillna0 j0) ;;
  let df := setitem df "j" (map Int js) in
  i0 <- getitem df "i" ;;
  is_ <- Series.astype_int i0 ;;
  let df := setitem df "i" (map Int is_) in
  z0 <- getitem df "z_level" ;;
  zs <- Series.astype_int z0 ;;
  let df := setitem df "z_level" (map Int zs) in
  let df := setitem df "fov" (fov_column is_ js) in
  region <- getitem df "region" ;;
  fov <- getitem df "fov" ;;
  z_level <- getitem df "z_level" ;;
  x_mm <- getitem df "x (mm)" ;;
  y_mm <- getitem df "y (mm)" ;;
  z_um <- getitem df "z (um)" ;;
  Ok [("region", region); ("fov", fov); ("z_level", z_level);
      ("x (mm)", x_mm); ("y (mm)", y_mm); ("z (um)", z_um)].

(* ===================================================================== *)
(** ** Files, paths and the process environment *)
(* ===================================================================== *)

(** A parameter document: a JSON object of scalar values. *)
Inductive json_value :=
| JStr (s : string)
| JBool (b : bool)
| JInt (z : Z)
| JNull.

Definition json_object := list (string * json_value).

(** The files the program reads or writes are CSV tables and JSON
    documents; a file holds its parsed content. *)
Inductive file :=
| CsvFile (df : DataFrame)
| JsonFile (doc : json_object).

Record filesystem := mk_fs {
  files : gmap string file;
  dirs : gset string
}.

Module os.
Definition sep : ascii := ascii_of_nat 47.

Definition starts_with_sep (s : string) : bool :=
  match s with
  | String c _ => Ascii.eqb c sep
  | EmptyString => false
  end.

Fixpoint ends_with_sep (s : string) : bool :=
  match s with
  | EmptyString => false
  | String c EmptyString => Ascii.eqb c sep
  | String _ r => ends_with_sep r
  end.

(** One step of [os.path.join] (posixpath). *)
Definition join2 (path b : string) : string :=
  if starts_with_sep b then b
  else if String.eqb path "" || ends_with_sep path then path +:+ b
  else path +:+ String sep b.

Definition join (a : string) (p : list string) : string :=
  fold_left join2 p a.

Definition is_file (fs : filesystem) (p : string) : bool :=
  match files fs !! p with Some _ => true | None => false end.

Definition is_dir (fs : filesystem) (p : string) : bool :=
  bool_decide (p ∈ dirs fs).

(** [os.path.exists] *)
Definition exists_ (fs : filesystem) (p : string) : bool :=
  is_file fs p || is_dir fs p.

(** [os.makedirs(p, exist_ok=True)] in a home directory that exists and
    can be written, with no regular file at [p]. *)
Definition makedirs (fs : filesystem) (p : string) : filesystem :=
  mk_fs (files fs) ({[ p ]} ∪ dirs fs).
End os.

Module pd.
(** [pd.read_csv(p)] of a path that exists. *)
Definition read_csv (fs : filesystem) (p : string) : result DataFrame :=
  match files fs !! p with
  | Some (CsvFile df) => Ok df
  | Some (JsonFile _) =>
      Raise (mk_exn ParserError "Error tokenizing data")
  | None =>
      if os.is_dir fs p
      then Raise (mk_exn IsADirectoryError ("Is a directory: " +:+ Py.repr p))
      else Raise (mk_exn FileNotFoundError
                    ("No such file or directory: " +:+ Py.repr p))
  end.

(** [df.to_csv(p, index=False)] *)
Definition to_csv (fs : filesystem) (p : string) (df : DataFrame) : filesystem :=
  mk_fs (<[ p := CsvFile df ]> (files fs)) (dirs fs).
End pd.

(** What the running interpreter supplies: the user's home directory
    ([Path.home()]) and the built-in [hash] on strings.  Python salts the
    string hash with a seed drawn when the process starts (unless
    [PYTHONHASHSEED] fixes it), so [str_hash] belongs to one process. *)
Record process_env := mk_env {
  home : string;
  str_hash : string -> Z
}.

Definition input_coords_file (input_folder : string) : string :=
  os.join input_folder ["0"; "coordinates.csv"].

Definition processed_dir (env : process_env) : string :=
  os.join (home env) [".image_stitcher_processed"].

(** [hash(input_folder) & 0xffffffff] *)
Definition folder_hash (env : process_env) (input_folder : string) : Z :=
  Z.land (str_hash env input_folder) 4294967295.

Definition output_coords_file (env : process_env) (input_folder : string) : string :=
  os.join (processed_dir env)
    ["coordinates_processed_" +:+ Py.str_int (folder_hash env input_folder)
       +:+ ".csv"].

Definition not_found_error (path : string) : exn :=
  mk_exn FileNotFoundError ("Coordinates file not found: " +:+ path).

(** [process_coordinates_file]: the result (the path of the processed file,
    or the exception) and the file system it leaves.  The lines printed on
    standard output are not part of the state. *)
Definition process_coordinates_file (env : process_env) (fs : filesystem)
    (input_folder : string) : result string * filesystem :=
  let input := input_coords_file input_folder in
  let fs := os.makedirs fs (processed_dir env) in
  let output := output_coords_file env input_folder in
  if negb (os.exists_ fs input) then (Raise (not_found_error input), fs)
  else
    match pd.read_csv fs input with
    | Raise e => (Raise e, fs)
    | Ok df =>
        match normalize df with
        | Raise e => (Raise e, fs)
        | Ok new_df => (Ok output, pd.to_csv fs output new_df)
        end
    end.

(* ===================================================================== *)
(** ** The parameter model *)
(* ===================================================================== *)

(** The discrete values of a run: the keys of [params_dict] in
    [create_params], equally the keys of a parameter document. *)
Record params_dict := mk_params_dict {
  d_input_folder : string;
  d_output_format : string;
  d_apply_flatfield : bool;
  d_use_registration : bool;
  d_registration_channel : option string;
  d_registration_z_level : Z;
  d_scan_pattern : string;
  d_merge_timepoints : bool;
  d_merge_hcs_regions : bool;
  d_dynamic_registration : bool
}.

Module StitchingParameters.

Inductive format := OmeZarr | OmeTiff.

Record t := mk {
  input_folder : string;
  output_format : format;
  apply_flatfield : bool;
  use_registration : bool;
  registration_channel : option string;
  registration_z_level : Z;
  scan_pattern : string;
  merge_timepoints : bool;
  merge_hcs_regions : bool;
  dynamic_registration : bool
}.

Definition format_of (s : string) : option format :=
  if String.eqb s ".ome.zarr" then Some OmeZarr
  else if String.eqb s ".ome.tiff" then Some OmeTiff
  else None.

Definition config_error (field : string) : exn :=
  mk_exn ConfigError ("invalid value for " +:+ field).

(** Modelled from the spec: the class [StitchingParameters] of the module
    [parameters] is not among the sources.  Section 4.2 gives the one
    validation routine: the output format must belong to the closed
    enumeration, the input folder must exist, the registration z-level
    must not be negative, each failure citing its field; nothing else is
    validated. *)
Definition from_dict (fs : filesystem) (d : params_dict) : result t :=
  match format_of (d_output_format d) with
  | None => Raise (config_error "output_format")
  | Some fmt =>
      if negb (os.exists_ fs (d_input_folder d))
      then Raise (config_error "input_folder")
      else if (d_registration_z_level d <? 0)%Z
      then Raise (config_error "registration_z_level")
      else Ok (mk (d_input_folder d) fmt (d_apply_flatfield d)
                  (d_use_registration d) (d_registration_channel d)
                  (d_registration_z_level d) (d_scan_pattern d)
                  (d_merge_timepoints d) (d_merge_hcs_regions d)
                  (d_dynamic_registration d))
  end.

Fixpoint get (k : string) (doc : json_object) : option json_value :=
  match doc with
  | [] => None
  | (n, v) :: doc' => if String.eqb k n then Some v else get k doc'
  end.

Definition get_str (k : string) (doc : json_object) : result string :=
  match get k doc with
  | Some (JStr s) => Ok s
  | _ => Raise (config_error k)
  end.

Definition get_bool (k : string) (doc : json_object) : result bool :=
  match get k doc with
  | Some (JBool b) => Ok b
  | _ => Raise (config_error k)
  end.

Definition get_int (k : string) (doc : json_object) : result Z :=
  match get k doc with
  | Some (JInt z) => Ok z
  | _ => Raise (config_error k)
  end.

Definition get_opt_str (k : string) (doc : json_object) : result (option string) :=
  match get k doc with
  | Some (JStr s) => Ok (Some s)
  | Some JNull => Ok None
  | _ => Raise (config_error k)
  end.

(** Modelled from the spec: the serialized document of section 6, one key
    per discrete field, with the same field names. *)
Definition serialize (d : params_dict) : json_object :=
  [("input_folder", JStr (d_input_folder d));
   ("output_format", JStr (d_output_format d));
   ("apply_flatfield", JBool (d_apply_flatfield d));
   ("use_registration", JBool (d_use_registration d));
   ("registration_channel",
      match d_registration_channel d with Some c => JStr c | None => JNull end);
   ("registration_z_level", JInt (d_registration_z_level d));
   ("scan_pattern", JStr (d_scan_pattern d));
   ("merge_timepoints", JBool (d_merge_timepoints d));
   ("merge_hcs_regions", JBool (d_merge_hcs_regions d));
   ("dynamic_registration", JBool (d_dynamic_registration d))].

Definition fields_of (doc : json_object) : result params_dict :=
  a <- get_str "input_folder" doc ;;
  b <- get_str "output_format" doc ;;
  c <- get_bool "apply_flatfield" doc ;;
  d <- get_bool "use_registration" doc ;;
  e <- get_opt_str "registration_channel" doc ;;
  f <- get_int "registration_z_level" doc ;;
  g <- get_str "scan_pattern" doc ;;
  h <- get_bool "merge_timepoints" doc ;;
  i <- get_bool "merge_hcs_regions" doc ;;
  j <- get_bool "dynamic_registration" doc ;;
  Ok (mk_params_dict a b c d e f g h i j).

Definition read_json (fs : filesystem) (path : string) : result json_object :=
  match files fs !! path with
  | Some (JsonFile doc) => Ok doc
  | Some (CsvFile _) => Raise (config_error path)
  | None =>
      Raise (mk_exn FileNotFoundError
               ("No such file or directory: " +:+ Py.repr path))
  end.

(** Modelled from the spec: the second entry point of section 4.2 and of
    the design note on dual construction paths: the document is read,
    its fields are extracted, and they go through the validation routine
    of [from_dict]. *)
Definition from_json (fs : filesystem) (path : string) : result t :=
  doc <- read_json fs path ;;
  d <- fields_of doc ;;
  from_dict fs d.

End StitchingParameters.

(** The [argparse.Namespace] that [parse_args] returns. *)
Record Namespace := mk_args {
  args_input_folder : string;
  args_output_format : string;
  args_apply_flatfield : bool;
  args_use_registration : bool;
  args_registration_channel : option string;
  args_registration_z_level : Z;
  args_dynamic_registration : bool;
  args_scan_pattern : string;
  args_merge_timepoints : bool;
  args_merge_hcs_regions : bool;
  args_params_json : option string
}.

Definition params_dict_of (args : Namespace) : params_dict :=
  {| d_input_folder := args_input_folder args;
     d_output_format := args_output_format args;
     d_apply_flatfield := args_apply_flatfield args;
     d_use_registration := args_use_registration args;
     d_registration_channel := args_registration_channel args;
     d_registration_z_level := args_registration_z_level args;
     d_scan_pattern := args_scan_pattern args;
     d_merge_timepoints := args_merge_timepoints args;
     d_merge_hcs_regions := args_merge_hcs_regions args;
     d_dynamic_registration := args_dynamic_registration args |}.

(** [if args.params_json:] is false for [None] and for the empty string. *)
Definition truthy (o : option string) : option string :=
  match o with
  | Some s => if String.eqb s "" then None else Some s
  | None => None
  end.

Definition create_params (fs : filesystem) (args : Namespace)
  : result StitchingParameters.t :=
  match truthy (args_params_json args) with
  | Some path => StitchingParameters.from_json fs path
  | None => StitchingParameters.from_dict fs (params_dict_of args)
  end.

(* ===================================================================== *)
(** ** The orchestrator *)
(* ===================================================================== *)

(** The stitching engine ([CoordinateStitcher]) is an external
    collaborator: a constructor taking the parameters, and [run], which
    may change the engine's own state and the file system, and may raise. *)
Record Engine := mk_engine {
  estate : Type;
  construct : StitchingParameters.t -> filesystem -> result estate;
  run : estate -> filesystem -> result unit * estate * filesystem
}.

(** How a call of [main] ends: it returns, the process exits with a
    status ([sys.exit]), or an exception leaves [main]. *)
Inductive outcome :=
| Returned
| Exited (status : Z)
| Propagated (e : exn).

Record world (E : Engine) := mk_world {
  w_fs : filesystem;
  w_stderr : list string;
  w_engine : option (estate E)
}.
Arguments mk_world {E} _ _ _.
Arguments w_fs {E} _.
Arguments w_stderr {E} _.
Arguments w_engine {E} _.

(** The body of the [try] block of [main]. *)
Definition main_body (E : Engine) (env : process_env) (args : Namespace)
    (fs : filesystem) : result unit * filesystem * option (estate E) :=
  match process_coordinates_file env fs (args_input_folder args) with
  | (Raise e, fs) => (Raise e, fs, None)
  | (Ok _, fs) =>
      match create_params fs args with
      | Raise e => (Raise e, fs, None)
      | Ok params =>
          match construct E params fs with
          | Raise e => (Raise e, fs, None)
          | Ok stitcher =>
              let '(r, stitcher, fs) := run E stitcher fs in
              (r, fs, Some stitcher)
          end
      end
  end.

(** [main]: [except Exception as e] prints ["Error: {e}"] on standard
    error and calls [sys.exit(1)]; an exception that is not an [Exception]
    is not caught. *)
Definition main (E : Engine) (env : process_env) (args : Namespace)
    (fs : filesystem) : outcome * world E :=
  let '(r, fs, st) := main_body E env args fs in
  match r with
  | Ok _ => (Returned, mk_world fs [] st)
  | Raise e =>
      if isinstance_of (kind e) Exception
      then (Exited 1, mk_world fs ["Error: " +:+ message e] st)
      else (Propagated e, mk_world fs [] st)
  end.

(* ===================================================================== *)
(** ** Views used to state the properties *)
(* ===================================================================== *)

(** The integer columns that [normalize] computes with: [j] after the
    missing values are filled, [i] and [z_level] as they are. *)
Definition coerced_j (df : DataFrame) : result (list Z) :=
  j0 <- getitem df "j" ;; Series.astype_int (Series.fillna0 j0).

Definition coerced (df : DataFrame) (c : string) : result (list Z) :=
  s <- getitem df c ;; Series.astype_int s.

(** The frame that [normalize] builds from its six columns. *)
Definition canonical (region fov z_level x_mm y_mm z_um : list cell) : DataFrame :=
  [("region", region); ("fov", fov); ("z_level", z_level);
   ("x (mm)", x_mm); ("y (mm)", y_mm); ("z (um)", z_um)].

Definition has_required_columns (df : DataFrame) : Prop :=
  forall c, In c required_columns -> has_column df c = true.

(** A raw table from its seven columns. *)
Definition raw_table (region i j z_level x_mm y_mm z_um : list cell) : DataFrame :=
  [("region", region); ("i", i); ("j", j); ("z_level", z_level);
   ("x (mm)", x_mm); ("y (mm)", y_mm); ("z (um)", z_um)].

(** The example of the specification (three tiles of region A1), with the
    [j] of the third row left blank: the column is then read as floats. *)
Definition example_table : DataFrame :=
  raw_table [Str "A1"; Str "A1"; Str "A1"]
            [Int 0; Int 0; Int 1]
            [Flt 0; Flt 1; NaN]
            [Int 0; Int 0; Int 0]
            [Flt 1; Flt 2; Flt 1]
            [Flt 1; Flt 1; Flt 2]
            [Int 0; Int 0; Int 0].


(** One tile whose [i] cell is blank. *)
Definition blank_i_table : DataFrame :=
  raw_table [Str "A1"] [NaN] [Int 0] [Int 0] [Flt 1] [Flt 1] [Int 0].

(** [dense vals lo hi]: the values that occur are exactly the integers of
    the interval from [lo] (included) to [hi] (excluded). *)
Definition dense (vals : list Z) (lo hi : Z) : Prop :=
  forall v, In v vals <-> (lo <= v < hi)%Z.

(** The grid positions of the rows, after coercion. *)
Definition positions (is_ js : list Z) : list (Z * Z) := combine is_ js.

(** Two tiles on the diagonal of a two by two grid. *)
Definition diagonal_table : DataFrame :=
  raw_table [Str "A1"; Str "A1"] [Int 0; Int 1] [Int 0; Int 1]
            [Int 0; Int 0] [Flt 1; Flt 2] [Flt 1; Flt 2] [Int 0; Int 0].

(** A full two by two grid, in row-major order. *)
Definition grid_table : DataFrame :=
  raw_table [Str "A1"; Str "A1"; Str "A1"; Str "A1"]
            [Int 0; Int 0; Int 1; Int 1] [Int 0; Int 1; Int 0; Int 1]
            [Int 0; Int 0; Int 0; Int 0] [Flt 1; Flt 2; Flt 1; Flt 2]
            [Flt 1; Flt 1; Flt 2; Flt 2] [Int 0; Int 0; Int 0; Int 0].

(** Helpers on strings, to state what a message or a path contains. *)
Fixpoint last_char (s : string) : option ascii :=
  match s with
  | EmptyString => None
  | String c EmptyString => Some c
  | String _ r => last_char r
  end.

Fixpoint contains (needle hay : string) : bool :=
  String.prefix needle hay ||
  match hay with
  | EmptyString => false
  | String _ r => contains needle r
  end.

(** The table that the cache file holds after a run, or the exception of
    the run. *)
Definition canonical_table (env : process_env) (fs : filesystem)
    (input_folder : string) : result DataFrame :=
  match process_coordinates_file env fs input_folder with
  | (Ok out, fs') => pd.read_csv fs' out
  | (Raise e, _) => Raise e
  end.

(** A table without the columns [i] and [j]. *)
Definition two_missing_table : DataFrame :=
  [("region", [Str "A1"]); ("z_level", [Int 0]);
   ("x (mm)", [Flt 1]); ("y (mm)", [Flt 1]); ("z (um)", [Int 0])].

(** Three tiles whose [z_level] column holds text in the third row. *)
Definition text_z_table : DataFrame :=
  raw_table [Str "A1"; Str "A1"; Str "A1"]
            [Int 0; Int 0; Int 1] [Int 0; Int 1; Int 0]
            [Str "0"; Str "0"; Str "top"]
            [Flt 1; Flt 2; Flt 1] [Flt 1; Flt 1; Flt 2] [Int 0; Int 0; Int 0].

(** One tile whose [j] is the fraction 3/2. *)
Definition fractional_j_table : DataFrame :=
  raw_table [Str "A1"] [Int 1] [Flt (3 # 2)] [Int 0] [Flt 1] [Flt 1] [Int 0].

Definition empty_fs : filesystem := mk_fs ∅ ∅.

(** A process whose string hash is the length of the string: a stand-in
    for one seed of the interpreter. *)
Definition sample_env : process_env :=
  mk_env "/home/user" (fun s => Z.of_nat (String.length s)).

(** A file system holding one acquisition under [/data/scan]. *)
Definition sample_fs (df : DataFrame) : filesystem :=
  mk_fs {[ "/data/scan/0/coordinates.csv" := CsvFile df ]}
        {[ "/data/scan"; "/data/scan/0"; "/home/user" ]}.


(** What section 4.2 validates. *)
Definition valid_params (fs : filesystem) (d : params_dict) : Prop :=
  StitchingParameters.format_of (d_output_format d) <> None /\
  os.exists_ fs (d_input_folder d) = true /\
  (0 <= d_registration_z_level d)%Z.

Definition with_params_json (args : Namespace) (p : option string) : Namespace :=
  {| args_input_folder := args_input_folder args;
     args_output_format := args_output_format args;
     args_apply_flatfield := args_apply_flatfield args;
     args_use_registration := args_use_registration args;
     args_registration_channel := args_registration_channel args;
     args_registration_z_level := args_registration_z_level args;
     args_dynamic_registration := args_dynamic_registration args;
     args_scan_pattern := args_scan_pattern args;
     args_merge_timepoints := args_merge_timepoints args;
     args_merge_hcs_regions := args_merge_hcs_regions args;
     args_params_json := p |}.

(** The command line [-i /data/scan] with every default. *)
Definition sample_args : Namespace :=
  {| args_input_folder := "/data/scan";
     args_output_format := ".ome.zarr";
     args_apply_flatfield := false;
     args_use_registration := false;
     args_registration_channel := None;
     args_registration_z_level := 0;
     args_dynamic_registration := false;
     args_scan_pattern := "Unidirectional";
     args_merge_timepoints := false;
     args_merge_hcs_regions := false;
     args_params_json := None |}.

(** The acquisition of [sample_fs] together with a parameter document
    holding the values of [sample_args]. *)
Definition sample_fs_with_document : filesystem :=
  mk_fs (<[ "/data/params.json" :=
              JsonFile (StitchingParameters.serialize (params_dict_of sample_args)) ]>
           (files (sample_fs example_table)))
        (dirs (sample_fs example_table)).

(** An engine whose [run] always raises [e]; its state counts the calls of
    [run]. *)
Definition failing_engine (e : exn) : Engine :=
  mk_engine nat (fun _ _ => Ok 0%nat) (fun n fs => (Raise e, S n, fs)).

(** One run of [main] on the sample acquisition with an engine that
    raises [e]. *)
Definition run_failing (e : exn) :=
  main (failing_engine e) sample_env sample_args (sample_fs example_table).

(** The folder name made of [n] letters. *)
Fixpoint folder_of (n : nat) : string :=
  match n with
  | O => EmptyString
  | S n' => String "a" (folder_of n')
  end.

(** The last component of a path. *)
Fixpoint basename (s : string) : string :=
  match s with
  | EmptyString => EmptyString
  | String c r =>
      if Py.contains_char os.sep r then basename r
      else if Ascii.eqb c os.sep then r else s
  end.

(* ===================================================================== *)
(** ** Further sample data *)
(* ===================================================================== *)

(** The example table with its columns in another order and two columns
    that the normaliser does not ask for. *)
Definition reordered_table : DataFrame :=
  [("time", [Flt 1; Flt 2; Flt 3]);
   ("z (um)", [Int 0; Int 0; Int 0]);
   ("y (mm)", [Flt 1; Flt 1; Flt 2]);
   ("x (mm)", [Flt 1; Flt 2; Flt 1]);
   ("z_level", [Int 0; Int 0; Int 0]);
   ("j", [Flt 0; Flt 1; NaN]);
   ("i", [Int 0; Int 0; Int 1]);
   ("fov", [Int 7; Int 7; Int 7]);
   ("region", [Str "A1"; Str "A1"; Str "A1"])].

(** A file with the header line only. *)
Definition empty_table : DataFrame := raw_table [] [] [] [] [] [] [].

(** One tile whose [z_level] cell is blank. *)
Definition blank_z_table : DataFrame :=
  raw_table [Str "A1"] [Int 0] [Int 0] [NaN] [Flt 1] [Flt 1] [Int 0].

(** An engine whose [run] succeeds; its state counts the calls of [run]. *)
Definition counting_engine : Engine :=
  mk_engine nat (fun _ _ => Ok 0%nat) (fun n fs => (Ok tt, S n, fs)).

(** An engine that cannot be constructed. *)
Definition broken_engine (e : exn) : Engine :=
  mk_engine nat (fun _ _ => Raise e) (fun n fs => (Ok tt, S n, fs)).

(* ===================================================================== *)
(** ** Properties *)
(* ===================================================================== *)

Section Int64Facts.
Local Open Scope Z_scope.

Lemma wrap_id z : Int64.in_range z -> Int64.wrap z = z.
Proof.
  unfold Int64.in_range, Int64.wrap, Int64.min_int, Int64.max_int, Int64.modulus.
  intros H. rewrite Z.mod_small; lia.
Qed.

Lemma wrap_congr x y :
  x mod Int64.modulus = y mod Int64.modulus -> Int64.wrap x = Int64.wrap y.
Proof.
  unfold Int64.wrap. intros H.
  rewrite (Z.add_mod x), (Z.add_mod y), H by (unfold Int64.modulus; lia).
  reflexivity.
Qed.

Lemma wrap_mod x : Int64.wrap x mod Int64.modulus = x mod Int64.modulus.
Proof.
  unfold Int64.wrap.
  rewrite Zminus_mod, Zmod_mod, <- Zminus_mod.
  f_equal. lia.
Qed.

(** The three wraps of [i * max_j + j] amount to one. *)
Lemma wrap_fov i m j :
  Int64.wrap (Int64.wrap (i * Int64.wrap (m + 1)) + j)
  = Int64.wrap (i * (m + 1) + j).
Proof.
  apply wrap_congr.
  rewrite Z.add_mod, wrap_mod by (unfold Int64.modulus; lia).
  rewrite Z.mul_mod, wrap_mod by (unfold Int64.modulus; lia).
  rewrite <- Z.mul_mod, <- Z.add_mod by (unfold Int64.modulus; lia).
  reflexivity.
Qed.

End Int64Facts.

Section FrameFacts.

Lemma lookup_setitem c c' v df :
  lookup_col c (setitem df c' v)
  = if String.eqb c c' then Some v else lookup_col c df.
Proof.
  induction df as [|[n w] df IH]; simpl.
  - destruct (String.eqb c c'); reflexivity.
  - destruct (String.eqb_spec c' n) as [->|Hne]; simpl.
    + destruct (String.eqb c n); reflexivity.
    + rewrite IH. destruct (String.eqb_spec c n) as [->|Hne'].
      * destruct (String.eqb_spec n c') as [->|_]; [congruence|reflexivity].
      * reflexivity.
Qed.

Lemma getitem_Ok df c v : getitem df c = Ok v <-> lookup_col c df = Some v.
Proof.
  unfold getitem. destruct (lookup_col c df); split; intros H; congruence.
Qed.

Lemma has_column_true df c :
  has_column df c = true <-> exists v, lookup_col c df = Some v.
Proof.
  unfold has_column. destruct (lookup_col c df).
  - split; eauto.
  - split; [discriminate | intros [v H]; discriminate].
Qed.

Lemma lookup_col_In c df v : lookup_col c df = Some v -> In (c, v) df.
Proof.
  induction df as [|[n w] df IH]; simpl; [discriminate|].
  destruct (String.eqb_spec c n) as [->|_].
  - intros [= ->]. now left.
  - intros H. right. auto.
Qed.

Lemma wf_lookup_length df c v :
  wf_df df -> lookup_col c df = Some v -> length v = nrows df.
Proof.
  intros Hwf Hl. apply lookup_col_In in Hl.
  unfold wf_df in Hwf. rewrite List.Forall_forall in Hwf.
  exact (Hwf _ Hl).
Qed.

(** The loop over the required columns passes exactly when none is
    absent, and otherwise raises for the first absent one. *)
Lemma check_columns_Ok df cols :
  check_columns df cols = Ok tt <-> (forall c, In c cols -> has_column df c = true).
Proof.
  induction cols as [|c cols IH]; simpl.
  - split; [intros _ c [] | reflexivity].
  - destruct (has_column df c) eqn:Hc.
    + rewrite IH. split.
      * intros H x [<-|Hx]; auto.
      * intros H x Hx. apply H. now right.
    + split; [discriminate|]. intros H. specialize (H c (or_introl eq_refl)). congruence.
Qed.

Lemma check_columns_Raise df cols e :
  check_columns df cols = Raise e ->
  exists pre c post,
    cols = pre ++ c :: post /\
    (forall x, In x pre -> has_column df x = true) /\
    has_column df c = false /\
    e = missing_column_error c.
Proof.
  induction cols as [|c cols IH]; simpl; [discriminate|].
  destruct (has_column df c) eqn:Hc.
  - intros H. destruct (IH H) as (pre & x & post & -> & Hpre & Hx & ->).
    exists (c :: pre), x, post.
    split; [reflexivity|]. split; [|split; [assumption|reflexivity]].
    intros y [<-|Hy]; auto.
  - intros [= <-]. exists [], c, cols.
    split; [reflexivity|]. split; [|split; [assumption|reflexivity]].
    intros x [].
Qed.

Lemma check_columns_cases df cols :
  check_columns df cols = Ok tt \/ exists e, check_columns df cols = Raise e.
Proof.
  destruct (check_columns df cols) as [[]|e]; eauto.
Qed.

End FrameFacts.

Section SeriesFacts.
Local Open Scope Z_scope.



Lemma mapR_Raise {A B} (f : A -> result B) l e :
  mapR f l = Raise e -> exists a, In a l /\ f a = Raise e.
Proof.
  induction l as [|x l IH]; simpl; [discriminate|].
  destruct (f x) as [b|e'] eqn:Hx.
  - destruct (mapR f l) as [bs|e'']; [discriminate|]. intros [= <-].
    destruct IH as (y & Hy & Hf); eauto.
  - intros [= <-]. eauto.
Qed.




Lemma max_from_spec s m :
  (In (Series.max_from m s) (m :: s)) /\
  Forall (fun z => z <= Series.max_from m s) (m :: s).
Proof.
  revert m. induction s as [|z s IH]; intros m; simpl.
  - split; [now left | repeat constructor; lia].
  - destruct (IH (Z.max m z)) as [Hin Hall]. split.
    + destruct Hin as [Heq|Hin]; [|now right; right].
      rewrite <- Heq. destruct (Z.max_spec m z) as [[_ ->]|[_ ->]]; auto.
    + inversion Hall as [|? ? Hm Hs]; subst.
      constructor; [lia|]. constructor; [lia|exact Hs].
Qed.

(** [Series.max] returns an element of the column that bounds all of
    them. *)
Lemma max_spec s M :
  Series.max s = Some M -> In M s /\ Forall (fun z => z <= M) s.
Proof.
  destruct s as [|z s]; simpl; [discriminate|].
  intros [= <-]. apply max_from_spec.
Qed.



Lemma zip_with_nth {A B C} (f : A -> B -> C) l l' k a b :
  nth_error l k = Some a -> nth_error l' k = Some b ->
  nth_error (zip_with f l l') k = Some (f a b).
Proof.
  revert l' k. induction l as [|x l IH]; intros [|y l'] [|k]; simpl; try discriminate.
  - intros [= <-] [= <-]. reflexivity.
  - apply IH.
Qed.

End SeriesFacts.

(** In a hypothesis [c ;; k = Ok v], the first step [c] has succeeded. *)
Ltac bind_ok H :=
  match type of H with
  | context [bind ?c _] =>
      let r := fresh "r" in
      destruct c as [r|] eqn:?; [cbn [bind] in H | discriminate H]
  end.

Section NormalizeFacts.

Lemma getitem_setitem df c c' v :
  getitem (setitem df c' v) c
  = if String.eqb c c' then Ok v else getitem df c.
Proof.
  unfold getitem. rewrite lookup_setitem. destruct (String.eqb c c'); reflexivity.
Qed.

(** [normalize] step by step: the check, the three coercions in the
    order [j], [i], [z_level], then the projection. *)
Lemma normalize_eq df :
  normalize df =
    (check_columns df required_columns ;;;
     js <- coerced_j df ;;
     is_ <- coerced df "i" ;;
     zs <- coerced df "z_level" ;;
     region <- getitem df "region" ;;
     x_mm <- getitem df "x (mm)" ;;
     y_mm <- getitem df "y (mm)" ;;
     z_um <- getitem df "z (um)" ;;
     Ok (canonical region (fov_column is_ js) (map Int zs) x_mm y_mm z_um)).
Proof.
  unfold normalize, coerced_j, coerced, canonical.
  destruct (check_columns df required_columns) as [[]|e]; [|reflexivity].
  cbn [bind].
  destruct (getitem df "j") as [j0|e]; [|reflexivity]. cbn [bind].
  destruct (Series.astype_int (Series.fillna0 j0)) as [js|e]; [|reflexivity].
  cbn [bind]. rewrite !getitem_setitem. cbn [String.eqb Ascii.eqb Bool.eqb].
  destruct (getitem df "i") as [i0|e]; [|reflexivity]. cbn [bind].
  destruct (Series.astype_int i0) as [is_|e]; [|reflexivity].
  cbn [bind]. rewrite !getitem_setitem. cbn [String.eqb Ascii.eqb Bool.eqb].
  destruct (getitem df "z_level") as [z0|e]; [|reflexivity]. cbn [bind].
  destruct (Series.astype_int z0) as [zs|e]; [|reflexivity].
  cbn [bind]. rewrite !getitem_setitem. cbn [String.eqb Ascii.eqb Bool.eqb].
  destruct (getitem df "region") as [r|e]; [|reflexivity]. cbn [bind].
  reflexivity.
Qed.
End NormalizeFacts.

Section FovInvariant.
Local Open Scope Z_scope.

Lemma required_lookup df c :
  has_required_columns df ->
  In c required_columns -> exists v, getitem df c = Ok v /\ lookup_col c df = Some v.
Proof.
  intros H Hc. apply H, has_column_true in Hc. destruct Hc as [v Hv].
  exists v. split; [apply getitem_Ok|]; exact Hv.
Qed.



Lemma fov_of_max js M a b :
  Series.max js = Some M ->
  fov_of (max_j_of js) a b = Int (Int64.wrap (a * (M + 1) + b)).
Proof.
  intros HM. unfold max_j_of. rewrite HM. simpl. f_equal. apply wrap_fov.
Qed.

End FovInvariant.

Section FovExamples.
Local Open Scope Z_scope.

Lemma has_required_by_check df :
  forallb (has_column df) required_columns = true -> has_required_columns df.
Proof.
  intros H c Hc. rewrite forallb_forall in H. auto.
Qed.



Example normalize_example_table :
  normalize example_table
  = Ok (canonical [Str "A1"; Str "A1"; Str "A1"] [Int 0; Int 1; Int 2]
                  [Int 0; Int 0; Int 0] [Flt 1; Flt 2; Flt 1]
                  [Flt 1; Flt 1; Flt 2] [Int 0; Int 0; Int 0]).
Proof. reflexivity. Qed.


Example normalize_blank_i :
  has_required_columns blank_i_table /\
  normalize blank_i_table = Raise Series.nonfinite_error.
Proof.
  split; [apply has_required_by_check; reflexivity | reflexivity].
Qed.
End FovExamples.

Section FullGrid.
Local Open Scope Z_scope.

Lemma normalize_fov_column df new_df js is_ :
  normalize df = Ok new_df -> coerced_j df = Ok js -> coerced df "i" = Ok is_ ->
  lookup_col "fov" new_df = Some (fov_column is_ js).
Proof.
  intros Hn Hj Hi. rewrite normalize_eq in Hn.
  bind_ok Hn. rewrite Hj, Hi in Hn. cbn [bind] in Hn.
  repeat bind_ok Hn. injection Hn as <-. reflexivity.
Qed.

Lemma In_zip_with {A B C} (f : A -> B -> C) l l' c :
  In c (zip_with f l l') <-> exists a b, In (a, b) (combine l l') /\ c = f a b.
Proof.
  revert l'. induction l as [|x l IH]; intros l'.
  - simpl. split; [intros [] | intros (a & b & [] & _)].
  - destruct l' as [|y l']; simpl.
    + split; [intros [] | intros (a & b & [] & _)].
    + rewrite IH. split.
      * intros [<-|(a & b & Hin & ->)]; eauto 6.
      * intros (a & b & [[= <- <-]|Hin] & ->); eauto 6.
Qed.

Lemma combine_nth_error {A B} (l : list A) (l' : list B) k a b :
  nth_error l k = Some a -> nth_error l' k = Some b ->
  In (a, b) (combine l l').
Proof.
  revert l' k. induction l as [|x l IH]; intros [|y l'] [|k]; simpl; try discriminate.
  - intros [= <-] [= <-]. now left.
  - intros Ha Hb. right. eauto.
Qed.

Lemma grid_index_inj m a1 b1 a2 b2 :
  0 <= b1 < m -> 0 <= b2 < m -> a1 * m + b1 = a2 * m + b2 -> a1 = a2 /\ b1 = b2.
Proof.
  intros H1 H2 H. assert (a1 = a2) by nia. subst. lia.
Qed.

Lemma fov_of_grid js M Mi a b :
  Series.max js = Some M ->
  0 <= a <= Mi -> 0 <= b <= M -> (Mi + 1) * (M + 1) <= 2 ^ 63 ->
  fov_of (max_j_of js) a b = Int (a * (M + 1) + b).
Proof.
  intros HM Ha Hb Hr. rewrite (fov_of_max _ _ _ _ HM). f_equal.
  apply wrap_id. unfold Int64.in_range, Int64.min_int, Int64.max_int. nia.
Qed.

(** C2 (amended).  Take a table that [normalize] accepts, in which every
    row has [j] present, no [i] or [j] is negative, and every position
    [(a, b)] of the grid [0 <= a <= max_i], [0 <= b < max_j] is the position
    of some row ([max_i] and [max_j - 1] being the largest [i] and [j]), the
    grid having at most [2^63] positions.  Then the [fov] values are exactly
    the integers [0 .. (max_i + 1) * max_j - 1], and two rows with the same
    [fov] have the same [i] and the same [j]. *)
Theorem fov_full_grid df new_df js is_ fov Mi Mj :
  normalize df = Ok new_df ->
  lookup_col "fov" new_df = Some fov ->
  coerced_j df = Ok js -> coerced df "i" = Ok is_ ->
  (forall j0, getitem df "j" = Ok j0 -> ~ In NaN j0) ->
  Series.max is_ = Some Mi -> Series.max js = Some Mj ->
  (forall a, In a is_ -> 0 <= a) -> (forall b, In b js -> 0 <= b) ->
  (forall a b, 0 <= a <= Mi -> 0 <= b < Mj + 1 -> In (a, b) (positions is_ js)) ->
  (Mi + 1) * (Mj + 1) <= 2 ^ 63 ->
  (forall c, In c fov <-> exists v, c = Int v /\ 0 <= v < (Mi + 1) * (Mj + 1)) /\
  (forall k1 k2 a1 b1 a2 b2 c,
      nth_error is_ k1 = Some a1 -> nth_error js k1 = Some b1 ->
      nth_error is_ k2 = Some a2 -> nth_error js k2 = Some b2 ->
      nth_error fov k1 = Some c -> nth_error fov k2 = Some c ->
      a1 = a2 /\ b1 = b2).
Proof.
  intros Hn Hfov Hj Hi _ HMi HMj Hi0 Hj0 Hgrid Hr.
  rewrite (normalize_fov_column _ _ _ _ Hn Hj Hi) in Hfov. injection Hfov as <-.
  destruct (max_spec _ _ HMi) as [HMi_in Hi_le].
  destruct (max_spec _ _ HMj) as [HMj_in Hj_le].
  pose proof (Hi0 _ HMi_in) as HMi0. pose proof (Hj0 _ HMj_in) as HMj0.
  rewrite List.Forall_forall in Hi_le, Hj_le.
  assert (Hbound : forall a b, In (a, b) (positions is_ js) ->
                               0 <= a <= Mi /\ 0 <= b <= Mj).
  { intros a b Hab.
    pose proof (in_combine_l _ _ _ _ Hab) as Ha.
    pose proof (in_combine_r _ _ _ _ Hab) as Hb.
    pose proof (Hi_le _ Ha). pose proof (Hj_le _ Hb).
    pose proof (Hi0 _ Ha). pose proof (Hj0 _ Hb). lia. }
  split.
  - intros c. unfold fov_column. rewrite In_zip_with. split.
    + intros (a & b & Hab & ->). destruct (Hbound _ _ Hab) as [Ha Hb].
      exists (a * (Mj + 1) + b). split; [|nia].
      apply fov_of_grid with (Mi := Mi); assumption.
    + intros (v & -> & Hv).
      assert (Hm : 0 < Mj + 1) by lia.
      pose proof (Z.div_mod v (Mj + 1) ltac:(lia)) as Hdm.
      pose proof (Z.mod_pos_bound v (Mj + 1) Hm) as Hb.
      assert (Ha : 0 <= v / (Mj + 1) <= Mi).
      { split; [apply Z.div_pos; lia|].
        apply Z.lt_succ_r, Z.div_lt_upper_bound; lia. }
      exists (v / (Mj + 1)), (v mod (Mj + 1)). split; [apply Hgrid; lia|].
      rewrite (fov_of_grid js Mj Mi) by (assumption || lia).
      f_equal. lia.
  - intros k1 k2 a1 b1 a2 b2 c Ha1 Hb1 Ha2 Hb2 H1 H2.
    unfold fov_column in H1, H2.
    rewrite (zip_with_nth _ _ _ _ _ _ Ha1 Hb1) in H1.
    rewrite (zip_with_nth _ _ _ _ _ _ Ha2 Hb2) in H2.
    assert (P1 : In (a1, b1) (positions is_ js)).
    { unfold positions. eauto using combine_nth_error. }
    assert (P2 : In (a2, b2) (positions is_ js)).
    { unfold positions. eauto using combine_nth_error. }
    destruct (Hbound _ _ P1), (Hbound _ _ P2).
    rewrite (fov_of_grid js Mj Mi) in H1 by assumption.
    rewrite (fov_of_grid js Mj Mi) in H2 by assumption.
    rewrite <- H1 in H2. injection H2 as H2.
    apply (grid_index_inj (Mj + 1)); lia.
Qed.
End FullGrid.

Section GridExamples.
Local Open Scope Z_scope.

(** C2, witness: the theorem at the full two by two grid. *)
Lemma fov_full_grid_witness :
  In (Int 3) [Int 0; Int 1; Int 2; Int 3] <->
  exists v, Int 3 = Int v /\ 0 <= v < (1 + 1) * (1 + 1).
Proof.
  refine (proj1 (fov_full_grid grid_table
            (canonical [Str "A1"; Str "A1"; Str "A1"; Str "A1"]
                       [Int 0; Int 1; Int 2; Int 3]
                       [Int 0; Int 0; Int 0; Int 0] [Flt 1; Flt 2; Flt 1; Flt 2]
                       [Flt 1; Flt 1; Flt 2; Flt 2] [Int 0; Int 0; Int 0; Int 0])
            [0; 1; 0; 1] [0; 0; 1; 1] [Int 0; Int 1; Int 2; Int 3] 1 1
            _ _ _ _ _ _ _ _ _ _ _) (Int 3)).
  - reflexivity.
  - reflexivity.
  - reflexivity.
  - reflexivity.
  - intros j0 [= <-]. simpl. intuition discriminate.
  - reflexivity.
  - reflexivity.
  - simpl. intros a H. intuition lia.
  - simpl. intros b H. intuition lia.
  - intros a b Ha Hb. simpl.
    assert (Ha' : a = 0 \/ a = 1) by lia. assert (Hb' : b = 0 \/ b = 1) by lia.
    destruct Ha' as [-> | ->], Hb' as [-> | ->]; tauto.
  - lia.
Defined.

(** C2, counterexample to the claim as stated: two tiles at [(0, 0)] and
    [(1, 1)].  Every [j] is present, the [j] values [0, 1] are dense over
    [[0, max_j)] with [max_j = 2], the [i] values [0, 1] are dense over
    [[0, max_i]] with [max_i = 1], yet the [fov] values are [0] and [3], not
    the four values [0 .. 3]. *)
Lemma fov_dense_counterexample :
  coerced diagonal_table "i" = Ok [0; 1] /\
  coerced_j diagonal_table = Ok [0; 1] /\
  getitem diagonal_table "j" = Ok [Int 0; Int 1] /\
  Series.max [0; 1] = Some 1 /\
  dense [0; 1] 0 (1 + 1) /\
  normalize diagonal_table
  = Ok (canonical [Str "A1"; Str "A1"] [Int 0; Int 3] [Int 0; Int 0]
                  [Flt 1; Flt 2] [Flt 1; Flt 2] [Int 0; Int 0]) /\
  ~ (forall v, In (Int v) [Int 0; Int 3] <-> 0 <= v < (1 + 1) * (1 + 1)).
Proof.
  do 4 (split; [reflexivity|]).
  split; [intros v; simpl; lia|]. split; [reflexivity|].
  intros H. destruct (proj2 (H 1) ltac:(lia)) as [[=]|[[=]|[]]].
Qed.
End GridExamples.

Section PathFacts.

Lemma append_nonempty a b : b <> "" -> a +:+ b <> "".
Proof. destruct a; simpl; [auto | discriminate]. Qed.

Lemma last_char_cons c s : s <> "" -> last_char (String c s) = last_char s.
Proof. destruct s; [congruence | reflexivity]. Qed.

Lemma last_char_app a b : b <> "" -> last_char (a +:+ b) = last_char b.
Proof.
  intros Hb. induction a as [|c a IH]; [reflexivity|].
  change (String c a +:+ b) with (String c (a +:+ b)).
  rewrite last_char_cons by (apply append_nonempty, Hb). exact IH.
Qed.

Lemma join2_last_char p b :
  b <> "" -> os.starts_with_sep b = false ->
  last_char (os.join2 p b) = last_char b.
Proof.
  intros Hb Hs. unfold os.join2. rewrite Hs.
  destruct (String.eqb p "" || os.ends_with_sep p).
  - apply last_char_app, Hb.
  - rewrite last_char_app by discriminate.
    destruct b; [congruence|reflexivity].
Qed.

Lemma input_not_processed_dir env f :
  input_coords_file f <> processed_dir env.
Proof.
  intros H. apply (f_equal last_char) in H.
  unfold input_coords_file, processed_dir, os.join in H. simpl fold_left in H.
  rewrite !join2_last_char in H by (discriminate || reflexivity).
  discriminate.
Qed.

Lemma exists_makedirs fs p q :
  p <> q -> os.exists_ (os.makedirs fs q) p = os.exists_ fs p.
Proof.
  intros Hne. unfold os.exists_, os.is_file, os.is_dir, os.makedirs. simpl.
  f_equal. apply bool_decide_ext.
  rewrite elem_of_union, elem_of_singleton. intuition congruence.
Qed.

Lemma read_csv_makedirs fs p q df :
  files fs !! p = Some (CsvFile df) -> pd.read_csv (os.makedirs fs q) p = Ok df.
Proof.
  intros H. unfold pd.read_csv, os.makedirs. simpl. rewrite H. reflexivity.
Qed.

Lemma exists_file fs p x : files fs !! p = Some x -> os.exists_ fs p = true.
Proof.
  intros H. unfold os.exists_, os.is_file. rewrite H. reflexivity.
Qed.

(** What [process_coordinates_file] does when the raw file holds the
    table [df]. *)
Lemma process_found env fs f df :
  files fs !! input_coords_file f = Some (CsvFile df) ->
  process_coordinates_file env fs f =
    match normalize df with
    | Raise e => (Raise e, os.makedirs fs (processed_dir env))
    | Ok new_df =>
        (Ok (output_coords_file env f),
         pd.to_csv (os.makedirs fs (processed_dir env))
                   (output_coords_file env f) new_df)
    end.
Proof.
  intros H. unfold process_coordinates_file.
  rewrite exists_makedirs by apply input_not_processed_dir.
  rewrite (exists_file _ _ _ H). simpl negb. cbv iota.
  rewrite (read_csv_makedirs _ _ _ _ H). reflexivity.
Qed.

Lemma process_missing env fs f :
  os.exists_ fs (input_coords_file f) = false ->
  process_coordinates_file env fs f =
    (Raise (not_found_error (input_coords_file f)),
     os.makedirs fs (processed_dir env)).
Proof.
  intros H. unfold process_coordinates_file.
  rewrite exists_makedirs by apply input_not_processed_dir.
  rewrite H. reflexivity.
Qed.

End PathFacts.

Section ProcessFacts.

Lemma canonical_table_found env fs f df :
  files fs !! input_coords_file f = Some (CsvFile df) ->
  canonical_table env fs f = normalize df.
Proof.
  intros H. unfold canonical_table. rewrite (process_found _ _ _ _ H).
  destruct (normalize df) as [new_df|e]; [|reflexivity].
  unfold pd.read_csv, pd.to_csv. simpl. rewrite lookup_insert_eq. reflexivity.
Qed.

(** C3.  Normalisation is deterministic: two runs whose raw file holds the
    same table leave the same canonical table (or raise the same
    exception), whatever the process, the hash seed, the home directory,
    the folder name and the rest of the file system; the result is the
    function [normalize] of the table. *)
Theorem normalization_deterministic env1 env2 fs1 fs2 f1 f2 df :
  files fs1 !! input_coords_file f1 = Some (CsvFile df) ->
  files fs2 !! input_coords_file f2 = Some (CsvFile df) ->
  canonical_table env1 fs1 f1 = canonical_table env2 fs2 f2 /\
  canonical_table env1 fs1 f1 = normalize df.
Proof.
  intros H1 H2. rewrite !canonical_table_found with (df := df) by assumption.
  split; reflexivity.
Qed.




End ProcessFacts.

Section FailureFacts.

Lemma process_raise env fs f e fs' :
  process_coordinates_file env fs f = (Raise e, fs') ->
  fs' = os.makedirs fs (processed_dir env).
Proof.
  unfold process_coordinates_file.
  destruct (negb _); [intros [= _ <-]; reflexivity|].
  destruct (pd.read_csv _ _) as [df|e1]; [|intros [= _ <-]; reflexivity].
  destruct (normalize df) as [new_df|e2]; [discriminate|].
  intros [= _ <-]. reflexivity.
Qed.

Lemma normalize_missing df e :
  check_columns df required_columns = Raise e -> normalize df = Raise e.
Proof. intros H. unfold normalize. rewrite H. reflexivity. Qed.

(** C6 (amended).  When a required column is absent from the raw table,
    the normaliser raises [ValueError] with the message
    ["Missing required column '<c>' in coordinates.csv"], where [c] is the
    first absent column in the order region, i, j, z_level, x (mm), y (mm),
    z (um); nothing is written. *)
Theorem missing_column_first env fs f df :
  files fs !! input_coords_file f = Some (CsvFile df) ->
  (exists c, In c required_columns /\ has_column df c = false) ->
  exists pre c post fs',
    required_columns = pre ++ c :: post /\
    (forall x, In x pre -> has_column df x = true) /\
    has_column df c = false /\
    normalize df = Raise (missing_column_error c) /\
    process_coordinates_file env fs f = (Raise (missing_column_error c), fs') /\
    kind (missing_column_error c) = ValueError /\
    message (missing_column_error c)
    = "Missing required column '" +:+ c +:+ "' in coordinates.csv" /\
    files fs' = files fs.
Proof.
  intros Hf (c0 & Hc0 & Habs).
  destruct (check_columns_cases df required_columns) as [Hok|[e He]].
  - rewrite check_columns_Ok in Hok. rewrite (Hok _ Hc0) in Habs. discriminate.
  - destruct (check_columns_Raise _ _ _ He) as (pre & c & post & Hsplit & Hpre & Hc & ->).
    exists pre, c, post, (os.makedirs fs (processed_dir env)).
    pose proof (normalize_missing _ _ He) as Hn.
    split; [exact Hsplit|]. split; [exact Hpre|]. split; [exact Hc|].
    split; [exact Hn|]. split.
    + rewrite (process_found _ _ _ _ Hf), Hn. reflexivity.
    + repeat split.
Qed.

(** C10.  The processed-data directory is created before the raw file is
    looked for: when the normaliser fails with the file-not-found error or
    with a missing-column error, the directory exists afterwards, although
    no file has been written. *)
Theorem directory_created_on_failure env fs f e fs' :
  process_coordinates_file env fs f = (Raise e, fs') ->
  (e = not_found_error (input_coords_file f) \/
   exists c, e = missing_column_error c) ->
  (processed_dir env ∈ dirs fs') /\ files fs' = files fs.
Proof.
  intros H _. rewrite (process_raise _ _ _ _ _ H). simpl. split.
  - apply elem_of_union_l, elem_of_singleton. reflexivity.
  - reflexivity.
Qed.
End FailureFacts.

Section ProcessExamples.

(** C3, witness: two different processes and file systems holding the
    example table. *)
Lemma normalization_deterministic_witness :
  canonical_table sample_env (sample_fs example_table) "/data/scan"
  = canonical_table (mk_env "/root" (fun _ => (-7)%Z))
      (mk_fs {[ "/mnt/x/0/coordinates.csv" := CsvFile example_table ]} ∅) "/mnt/x".
Proof.
  refine (proj1 (normalization_deterministic sample_env
            (mk_env "/root" (fun _ => (-7)%Z))
            (sample_fs example_table)
            (mk_fs {[ "/mnt/x/0/coordinates.csv" := CsvFile example_table ]} ∅)
            "/data/scan" "/mnt/x" example_table _ _)).
  - vm_compute. reflexivity.
  - vm_compute. reflexivity.
Defined.


(** C6, witness: a table without [i] and [j]. *)
Lemma missing_column_first_witness :
  exists pre c post fs',
    required_columns = pre ++ c :: post /\
    (forall x, In x pre -> has_column two_missing_table x = true) /\
    has_column two_missing_table c = false /\
    normalize two_missing_table = Raise (missing_column_error c) /\
    process_coordinates_file sample_env (sample_fs two_missing_table) "/data/scan"
    = (Raise (missing_column_error c), fs') /\
    kind (missing_column_error c) = ValueError /\
    message (missing_column_error c)
    = "Missing required column '" +:+ c +:+ "' in coordinates.csv" /\
    files fs' = files (sample_fs two_missing_table).
Proof.
  apply (missing_column_first sample_env (sample_fs two_missing_table) "/data/scan").
  - vm_compute. reflexivity.
  - exists "j". split; [simpl; tauto | reflexivity].
Defined.

(** C6, counterexample to the claim as stated: the table lacks both [i]
    and [j], and the message names [i] only; the letter j does not occur in
    it. *)
Lemma missing_columns_counterexample :
  has_column two_missing_table "i" = false /\
  has_column two_missing_table "j" = false /\
  normalize two_missing_table
  = Raise (mk_exn ValueError "Missing required column 'i' in coordinates.csv") /\
  contains "j" "Missing required column 'i' in coordinates.csv" = false.
Proof. repeat split. Qed.

(** C10, witness: from the empty file system, a failed run leaves the
    directory, which was not there before. *)
Lemma directory_created_on_failure_witness :
  (processed_dir sample_env ∉ dirs empty_fs) /\
  (processed_dir sample_env
     ∈ dirs (os.makedirs empty_fs (processed_dir sample_env))) /\
  files (os.makedirs empty_fs (processed_dir sample_env)) = files empty_fs.
Proof.
  split; [apply not_elem_of_empty|].
  apply (directory_created_on_failure sample_env empty_fs "/data/scan"
           (not_found_error (input_coords_file "/data/scan"))).
  - apply process_missing. vm_compute. reflexivity.
  - left. reflexivity.
Defined.
End ProcessExamples.

Section Coercion.

Lemma astype_int_Raise s e :
  Series.astype_int s = Raise e ->
  (e = Series.nonfinite_error /\ In NaN s) \/
  (exists c, In c s /\ Series.int_of_object c = Raise e).
Proof.
  unfold Series.astype_int. destruct (Series.is_object s).
  - intros H. right. apply mapR_Raise in H. exact H.
  - destruct (existsb Series.is_nan s) eqn:Hn; [|discriminate].
    intros [= <-]. left. split; [reflexivity|].
    apply existsb_exists in Hn. destruct Hn as (c & Hc & Hnan).
    destruct c; try discriminate. exact Hc.
Qed.

Lemma to_c_long_Raise z e :
  Series.to_c_long z = Raise e -> e = Series.too_large_error.
Proof.
  unfold Series.to_c_long. destruct (Int64.in_rangeb z); [discriminate|].
  intros [= <-]. reflexivity.
Qed.

Lemma int_of_object_kind c e :
  Series.int_of_object c = Raise e ->
  kind e = ValueError \/ kind e = OverflowError.
Proof.
  destruct c as [z|q| |s]; simpl.
  - intros H. apply to_c_long_Raise in H. subst. now right.
  - intros H. apply to_c_long_Raise in H. subst. now right.
  - intros [= <-]. now left.
  - destruct (Py.int_of_str s).
    + intros H. apply to_c_long_Raise in H. subst. now right.
    + intros [= <-]. now left.
Qed.









Example fractional_j_truncated :
  normalize fractional_j_table
  = Ok (canonical [Str "A1"] [Int 3] [Int 0] [Flt 1] [Flt 1] [Int 0]).
Proof. reflexivity. Qed.
End Coercion.

Section ParameterModel.

Lemma fields_of_serialize d :
  StitchingParameters.fields_of (StitchingParameters.serialize d) = Ok d.
Proof.
  destruct d as [a b c d e f g h i j]. destruct e; reflexivity.
Qed.

Lemma from_json_serialize fs d path :
  files fs !! path = Some (JsonFile (StitchingParameters.serialize d)) ->
  StitchingParameters.from_json fs path = StitchingParameters.from_dict fs d.
Proof.
  intros H. unfold StitchingParameters.from_json, StitchingParameters.read_json.
  rewrite H. cbn [bind]. rewrite fields_of_serialize. reflexivity.
Qed.

Lemma truthy_Some p : p <> "" -> truthy (Some p) = Some p.
Proof.
  intros H. unfold truthy. destruct (String.eqb_spec p ""); congruence.
Qed.

(** C8.  For every set of discrete values [d], constructing the
    parameters from the document [serialize d] gives the same result as
    constructing them from [d]: the same parameter object, field for field,
    when [d] is valid, and the same error otherwise.  Hence [create_params]
    gives the same result with and without [--params-json] when the
    document holds the values of the command line. *)
Theorem construction_paths_agree fs d path :
  files fs !! path = Some (JsonFile (StitchingParameters.serialize d)) ->
  StitchingParameters.from_json fs path = StitchingParameters.from_dict fs d /\
  (valid_params fs d ->
   exists p, StitchingParameters.from_dict fs d = Ok p /\
             StitchingParameters.from_json fs path = Ok p) /\
  (forall args, params_dict_of args = d -> path <> "" ->
     create_params fs (with_params_json args (Some path))
     = create_params fs (with_params_json args None)).
Proof.
  intros H. pose proof (from_json_serialize _ _ _ H) as Heq.
  split; [exact Heq|]. split.
  - intros (Hfmt & Hex & Hz). rewrite Heq. unfold StitchingParameters.from_dict.
    destruct (StitchingParameters.format_of (d_output_format d)); [|congruence].
    rewrite Hex. simpl negb. cbv iota.
    destruct (Z.ltb_spec (d_registration_z_level d) 0); [lia|]. eauto.
  - intros args Hd Hp. unfold create_params. simpl args_params_json.
    rewrite (truthy_Some _ Hp). simpl truthy. cbv iota.
    rewrite Heq. f_equal. rewrite <- Hd. reflexivity.
Qed.

(** C8, witness: the defaults of the command line. *)
Lemma construction_paths_agree_witness :
  StitchingParameters.from_json sample_fs_with_document "/data/params.json"
  = StitchingParameters.from_dict sample_fs_with_document (params_dict_of sample_args).
Proof.
  refine (proj1 (construction_paths_agree sample_fs_with_document
                   (params_dict_of sample_args) "/data/params.json" _)).
  vm_compute. reflexivity.
Defined.

Example sample_params :
  StitchingParameters.from_dict sample_fs_with_document (params_dict_of sample_args)
  = Ok (StitchingParameters.mk "/data/scan" StitchingParameters.OmeZarr false false
          None 0 "Unidirectional" false false false).
Proof. vm_compute. reflexivity. Qed.
End ParameterModel.

Section Orchestrator.

(** C9 (amended).  When [run] raises [e], the orchestrator does not call
    [run] again (the engine is left in the state after that one call) and
    the run is over.  If [e] is an [Exception], [main] prints
    ["Error: <message>"] on standard error and exits with status 1: the
    message is kept, the kind is not.  Otherwise [e] leaves [main]
    unchanged. *)
Theorem engine_failure_fatal (E : Engine) env args fs out fs1 params st e st' fs2 :
  process_coordinates_file env fs (args_input_folder args) = (Ok out, fs1) ->
  create_params fs1 args = Ok params ->
  construct E params fs1 = Ok st ->
  run E st fs1 = (Raise e, st', fs2) ->
  main E env args fs =
    if isinstance_of (kind e) Exception
    then (Exited 1, mk_world fs2 ["Error: " +:+ message e] (Some st'))
    else (Propagated e, mk_world fs2 [] (Some st')).
Proof.
  intros Hp Hc Hk Hr. unfold main, main_body.
  rewrite Hp, Hc, Hk, Hr. reflexivity.
Qed.

(** C9, witness: an engine that raises [RuntimeError("boom")]; [run] was
    called once. *)
Lemma engine_failure_fatal_witness :
  main (failing_engine (mk_exn RuntimeError "boom")) sample_env sample_args
       (sample_fs example_table)
  = (Exited 1,
     mk_world (E := failing_engine (mk_exn RuntimeError "boom"))
       (snd (process_coordinates_file sample_env (sample_fs example_table)
               "/data/scan"))
       ["Error: boom"] (Some 1%nat)).
Proof.
  refine (engine_failure_fatal (failing_engine (mk_exn RuntimeError "boom"))
            sample_env sample_args (sample_fs example_table)
            (output_coords_file sample_env "/data/scan")
            (snd (process_coordinates_file sample_env (sample_fs example_table)
                    "/data/scan"))
            (StitchingParameters.mk "/data/scan" StitchingParameters.OmeZarr
               false false None 0 "Unidirectional" false false false)
            0%nat (mk_exn RuntimeError "boom") 1%nat
            (snd (process_coordinates_file sample_env (sample_fs example_table)
                    "/data/scan")) _ _ _ _).
  - rewrite (process_found sample_env _ "/data/scan" example_table)
      by (vm_compute; reflexivity).
    reflexivity.
  - vm_compute. reflexivity.
  - reflexivity.
  - reflexivity.
Defined.

(** C9, counterexample to the claim as stated: a [RuntimeError] and a
    [ValueError] with the same message end the same way, with exit status 1
    and the same line on standard error; the exception itself does not
    reach the caller. *)
Lemma failure_kind_counterexample :
  fst (run_failing (mk_exn RuntimeError "boom")) = Exited 1 /\
  w_stderr (snd (run_failing (mk_exn RuntimeError "boom"))) = ["Error: boom"] /\
  fst (run_failing (mk_exn ValueError "boom")) = Exited 1 /\
  w_stderr (snd (run_failing (mk_exn ValueError "boom"))) = ["Error: boom"] /\
  fst (run_failing (mk_exn RuntimeError "boom"))
    <> Propagated (mk_exn RuntimeError "boom").
Proof.
  unfold run_failing.
  split; [vm_compute; reflexivity|]. split; [vm_compute; reflexivity|].
  split; [vm_compute; reflexivity|]. split; [vm_compute; reflexivity|].
  vm_compute. discriminate.
Qed.

Example interrupt_not_caught :
  fst (main (failing_engine (mk_exn KeyboardInterrupt ""))
         sample_env sample_args (sample_fs example_table))
  = Propagated (mk_exn KeyboardInterrupt "").
Proof. vm_compute. reflexivity. Qed.
End Orchestrator.

Section CacheName.

Lemma bounded_search (P : nat -> Prop) (dec : forall k, {P k} + {~ P k}) n :
  (exists k, k <= n /\ P k) \/ (forall k, k <= n -> ~ P k).
Proof.
  induction n as [|n IH].
  - destruct (dec 0) as [H|H].
    + left. exists 0. split; [lia|exact H].
    + right. intros k Hk. replace k with 0 by lia. exact H.
  - destruct IH as [(k & Hk & HP)|Hno].
    + left. exists k. split; [lia|exact HP].
    + destruct (dec (S n)) as [H|H].
      * left. exists (S n). split; [lia|exact H].
      * right. intros k Hk. destruct (Nat.eq_dec k (S n)) as [->|Hne];
          [exact H | apply Hno; lia].
Qed.

(** Pigeonhole: [n + 1] values below [n] hold two equal ones. *)
Lemma pigeonhole n : forall g : nat -> nat,
  (forall k, k <= n -> g k < n) ->
  exists a b, a < b /\ b <= n /\ g a = g b.
Proof.
  induction n as [|n IH]; intros g Hg.
  - specialize (Hg 0 (Nat.le_refl 0)). lia.
  - destruct (bounded_search (fun k => g k = g (S n))
                (fun k => Nat.eq_dec (g k) (g (S n))) n)
      as [(k & Hk & Heq)|Hno].
    + exists k, (S n). split; [lia|]. split; [lia|exact Heq].
    + set (g' := fun k => if g k <? g (S n) then g k else g k - 1).
      destruct (IH g') as (a & b & Hab & Hb & Heq).
      * intros k Hk. unfold g'.
        pose proof (Hg k ltac:(lia)). pose proof (Hg (S n) ltac:(lia)).
        pose proof (Hno k Hk).
        destruct (Nat.ltb_spec (g k) (g (S n))); lia.
      * exists a, b. split; [exact Hab|]. split; [lia|].
        pose proof (Hno a ltac:(lia)). pose proof (Hno b ltac:(lia)).
        unfold g' in Heq.
        destruct (Nat.ltb_spec (g a) (g (S n))), (Nat.ltb_spec (g b) (g (S n))); lia.
Qed.

Lemma folder_of_length n : String.length (folder_of n) = n.
Proof. induction n; simpl; congruence. Qed.

Lemma folder_hash_range env f : (0 <= folder_hash env f < 2 ^ 32)%Z.
Proof.
  unfold folder_hash. change 4294967295%Z with (Z.ones 32).
  rewrite Z.land_ones by lia. apply Z.mod_pos_bound. lia.
Qed.

(** C4.  Whatever the string hash of the process, two distinct input
    folders get the same cache file: the name keeps 32 bits of the hash. *)
Theorem cache_name_collision env :
  exists f1 f2,
    f1 <> f2 /\
    folder_hash env f1 = folder_hash env f2 /\
    output_coords_file env f1 = output_coords_file env f2.
Proof.
  set (N := Z.to_nat (2 ^ 32)).
  destruct (pigeonhole N (fun k => Z.to_nat (folder_hash env (folder_of k))))
    as (a & b & Hab & _ & Heq).
  - intros k _. pose proof (folder_hash_range env (folder_of k)). unfold N. lia.
  - exists (folder_of a), (folder_of b).
    assert (Hh : folder_hash env (folder_of a) = folder_hash env (folder_of b)).
    { pose proof (folder_hash_range env (folder_of a)).
      pose proof (folder_hash_range env (folder_of b)). lia. }
    split; [|split; [exact Hh|]].
    + intros H. apply (f_equal String.length) in H.
      rewrite !folder_of_length in H. lia.
    + unfold output_coords_file. rewrite Hh. reflexivity.
Qed.

(** Two processes whose hash seeds differ name the cache file of one
    folder differently. *)
Example cache_path_depends_on_seed :
  output_coords_file (mk_env "/home/user" (fun _ => 1%Z)) "/data/scan"
  <> output_coords_file (mk_env "/home/user" (fun _ => 2%Z)) "/data/scan".
Proof. vm_compute. discriminate. Qed.

Example cache_path_sample :
  output_coords_file sample_env "/data/scan"
  = "/home/user/.image_stitcher_processed/coordinates_processed_10.csv".
Proof. reflexivity. Qed.

Example cache_path_collision_sample :
  output_coords_file sample_env "/data/scan"
  = output_coords_file sample_env "/data/skin".
Proof. reflexivity. Qed.
End CacheName.

Section Rerun.

Lemma contains_char_app c a b :
  Py.contains_char c (a +:+ b) = Py.contains_char c a || Py.contains_char c b.
Proof.
  induction a as [|d a IH]; [reflexivity|].
  change (String d a +:+ b) with (String d (a +:+ b)). simpl.
  rewrite IH. apply orb_assoc.
Qed.

Lemma basename_no_sep b : Py.contains_char os.sep b = false -> basename b = b.
Proof.
  destruct b as [|c b]; [reflexivity|]. cbn [Py.contains_char basename].
  intros H. apply orb_false_iff in H. destruct H as [H1 H2].
  rewrite H2, Ascii.eqb_sym, H1. reflexivity.
Qed.

Lemma basename_app_sep p b :
  Py.contains_char os.sep b = false -> basename (p +:+ String os.sep b) = b.
Proof.
  intros Hb. induction p as [|c p IH].
  - change ("" +:+ String os.sep b) with (String os.sep b).
    cbn [basename]. rewrite Hb, Ascii.eqb_refl. reflexivity.
  - change (String c p +:+ String os.sep b) with (String c (p +:+ String os.sep b)).
    cbn [basename]. rewrite contains_char_app.
    cbn [Py.contains_char]. rewrite Ascii.eqb_refl, orb_true_r. exact IH.
Qed.

Lemma ends_with_sep_split p :
  os.ends_with_sep p = true -> exists q, p = q +:+ String os.sep "".
Proof.
  induction p as [|c p IH]; [discriminate|].
  destruct p as [|d p].
  - cbn [os.ends_with_sep]. intros H. apply Ascii.eqb_eq in H. subst.
    exists "". reflexivity.
  - intros H. destruct IH as [q ->]; [exact H|].
    exists (String c q). reflexivity.
Qed.

Lemma append_assoc a b c : (a +:+ b) +:+ c = a +:+ (b +:+ c).
Proof.
  induction a as [|x a IH]; [reflexivity|].
  change (String x ((a +:+ b) +:+ c) = String x (a +:+ (b +:+ c))).
  f_equal. exact IH.
Qed.

Lemma basename_join2 p b :
  Py.contains_char os.sep b = false -> basename (os.join2 p b) = b.
Proof.
  intros Hb. unfold os.join2.
  assert (Hs : os.starts_with_sep b = false).
  { destruct b as [|c b]; [reflexivity|].
    cbn [Py.contains_char os.starts_with_sep] in *.
    apply orb_false_iff in Hb. destruct Hb as [Hb _].
    rewrite Ascii.eqb_sym. exact Hb. }
  rewrite Hs. destruct (String.eqb_spec p "") as [->|Hne].
  - apply basename_no_sep, Hb.
  - cbn [orb]. destruct (os.ends_with_sep p) eqn:He.
    + destruct (ends_with_sep_split _ He) as [q ->].
      rewrite append_assoc. apply basename_app_sep, Hb.
    + apply basename_app_sep, Hb.
Qed.

Lemma uint_no_sep d :
  Py.contains_char os.sep (DecimalString.NilEmpty.string_of_uint d) = false.
Proof.
  induction d; [reflexivity | ..];
    cbn [DecimalString.NilEmpty.string_of_uint Py.contains_char];
    rewrite IHd; reflexivity.
Qed.

Lemma str_int_no_sep z : Py.contains_char os.sep (Py.str_int z) = false.
Proof.
  unfold Py.str_int, DecimalString.NilZero.string_of_int,
    DecimalString.NilZero.string_of_uint.
  destruct (Z.to_int z) as [d|d]; destruct d;
    try reflexivity; try apply uint_no_sep;
    cbn [Py.contains_char]; rewrite uint_no_sep; reflexivity.
Qed.

(** The cache file is never the raw file. *)
Lemma output_not_input env f f' :
  output_coords_file env f <> input_coords_file f'.
Proof.
  intros H. apply (f_equal basename) in H.
  unfold output_coords_file, input_coords_file, os.join in H.
  simpl fold_left in H. rewrite !basename_join2 in H.
  - discriminate.
  - reflexivity.
  - rewrite !contains_char_app, str_int_no_sep. reflexivity.
Qed.

Lemma makedirs_twice fs p : os.makedirs (os.makedirs fs p) p = os.makedirs fs p.
Proof.
  unfold os.makedirs. simpl. f_equal.
  apply set_eq. intros x. rewrite !elem_of_union. tauto.
Qed.

(** Running the normaliser again, in the same process, on the file system
    that the first run left: the same result and the same file system. *)
Lemma rerun_idempotent env fs f df :
  files fs !! input_coords_file f = Some (CsvFile df) ->
  let '(r1, fs1) := process_coordinates_file env fs f in
  process_coordinates_file env fs1 f = (r1, fs1).
Proof.
  intros H. rewrite (process_found _ _ _ _ H).
  destruct (normalize df) as [new_df|e] eqn:Hn.
  - rewrite (process_found env _ f df), Hn.
    + f_equal. unfold pd.to_csv, os.makedirs. simpl. f_equal.
      * apply insert_insert_eq.
      * apply set_eq. intros x. rewrite !elem_of_union. tauto.
    + simpl. rewrite lookup_insert_ne by apply output_not_input. exact H.
  - rewrite (process_found env _ f df), Hn by exact H.
    rewrite makedirs_twice. reflexivity.
Qed.
End Rerun.

(* ===================================================================== *)
(** ** Further properties of the normaliser, the cache path and [main] *)
(* ===================================================================== *)

Section Independence.

Lemma check_columns_ext df1 df2 cols :
  (forall c, In c cols -> lookup_col c df1 = lookup_col c df2) ->
  check_columns df1 cols = check_columns df2 cols.
Proof.
  induction cols as [|c cols IH]; intros H; [reflexivity|].
  simpl. unfold has_column. rewrite (H c) by (now left).
  rewrite IH by (intros x Hx; apply H; now right). reflexivity.
Qed.

Lemma getitem_ext df1 df2 c :
  lookup_col c df1 = lookup_col c df2 -> getitem df1 c = getitem df2 c.
Proof. unfold getitem. intros ->. reflexivity. Qed.

(** X1.  [normalize] reads the seven required columns and nothing else: two
    frames that agree on them, whatever their other columns and the order
    of their columns, give the same canonical table or the same error. *)
Theorem normalize_reads_required_only df1 df2 :
  (forall c, In c required_columns -> lookup_col c df1 = lookup_col c df2) ->
  normalize df1 = normalize df2.
Proof.
  intros H. rewrite !normalize_eq. rewrite (check_columns_ext df1 df2) by exact H.
  unfold coerced_j, coerced.
  rewrite (getitem_ext df1 df2 "j"), (getitem_ext df1 df2 "i"),
    (getitem_ext df1 df2 "z_level"), (getitem_ext df1 df2 "region"),
    (getitem_ext df1 df2 "x (mm)"), (getitem_ext df1 df2 "y (mm)"),
    (getitem_ext df1 df2 "z (um)") by (apply H; simpl; tauto).
  reflexivity.
Qed.

(** X1, witness: the example table with reordered and additional columns,
    one of them already called [fov]. *)
Lemma normalize_reads_required_only_witness :
  normalize reordered_table = normalize example_table.
Proof.
  apply (normalize_reads_required_only reordered_table example_table).
  intros c Hc. simpl in Hc.
  repeat (destruct Hc as [<-|Hc]; [reflexivity|]). destruct Hc.
Defined.
End Independence.

Section Projection.
Local Open Scope Z_scope.

Lemma normalize_Ok_inv df new_df :
  normalize df = Ok new_df ->
  exists js is_ zs r x y z,
    coerced_j df = Ok js /\ coerced df "i" = Ok is_ /\
    coerced df "z_level" = Ok zs /\
    lookup_col "region" df = Some r /\ lookup_col "x (mm)" df = Some x /\
    lookup_col "y (mm)" df = Some y /\ lookup_col "z (um)" df = Some z /\
    new_df = canonical r (fov_column is_ js) (map Int zs) x y z.
Proof.
  intros Hn. rewrite normalize_eq in Hn.
  destruct (check_columns df required_columns); [|discriminate].
  cbn [bind] in Hn.
  destruct (coerced_j df) as [js|]; [|discriminate]. cbn [bind] in Hn.
  destruct (coerced df "i") as [is_|]; [|discriminate]. cbn [bind] in Hn.
  destruct (coerced df "z_level") as [zs|]; [|discriminate]. cbn [bind] in Hn.
  destruct (getitem df "region") as [r|] eqn:Hr; [|discriminate].
  destruct (getitem df "x (mm)") as [x|] eqn:Hx; [|discriminate].
  destruct (getitem df "y (mm)") as [y|] eqn:Hy; [|discriminate].
  destruct (getitem df "z (um)") as [z|] eqn:Hz; [|discriminate].
  cbn [bind] in Hn. injection Hn as <-.
  apply getitem_Ok in Hr, Hx, Hy, Hz.
  exists js, is_, zs, r, x, y, z. repeat split; assumption.
Qed.



Lemma normalize_after_check df :
  has_required_columns df ->
  normalize df =
    (js <- coerced_j df ;;
     is_ <- coerced df "i" ;;
     zs <- coerced df "z_level" ;;
     region <- getitem df "region" ;;
     x_mm <- getitem df "x (mm)" ;;
     y_mm <- getitem df "y (mm)" ;;
     z_um <- getitem df "z (um)" ;;
     Ok (canonical region (fov_column is_ js) (map Int zs) x_mm y_mm z_um)).
Proof.
  intros Hreq. rewrite normalize_eq.
  rewrite (proj2 (check_columns_Ok df required_columns) Hreq). reflexivity.
Qed.

Lemma length_zero_nil {A} (l : list A) : length l = 0%nat -> l = [].
Proof. destruct l; [reflexivity | discriminate]. Qed.

(** X3.  A table without rows (a file with the header only) is not an
    error: [normalize] returns the canonical table without rows. *)
Theorem normalize_no_rows df :
  wf_df df -> has_required_columns df -> nrows df = 0%nat ->
  normalize df = Ok (canonical [] [] [] [] [] []).
Proof.
  intros Hwf Hreq H0.
  assert (Hnil : forall c, In c required_columns -> getitem df c = Ok []).
  { intros c Hc. destruct (required_lookup df c Hreq Hc) as (v & Hg & Hv).
    pose proof (wf_lookup_length _ _ _ Hwf Hv) as Hl.
    rewrite H0 in Hl. apply length_zero_nil in Hl. subst v. exact Hg. }
  rewrite (normalize_after_check _ Hreq). unfold coerced_j, coerced.
  rewrite !Hnil by (simpl; tauto). reflexivity.
Qed.

(** X3, witness: the header-only table with an additional column. *)
Lemma normalize_no_rows_witness :
  normalize (("time", []) :: empty_table) = Ok (canonical [] [] [] [] [] []).
Proof.
  apply (normalize_no_rows (("time", []) :: empty_table)).
  - repeat constructor.
  - apply has_required_by_check. reflexivity.
  - reflexivity.
Defined.


End Projection.

Section ErrorOrder.

(** X5.  With the required columns present, the columns are coerced in the
    order [j], [i], [z_level], and the first one that fails decides the
    error: a bad [j] is reported whatever [i] and [z_level] hold, a bad [i]
    only if [j] was accepted, a bad [z_level] only if both were. *)
Theorem coercion_order df :
  has_required_columns df ->
  (forall e, coerced_j df = Raise e -> normalize df = Raise e) /\
  (forall js e, coerced_j df = Ok js -> coerced df "i" = Raise e ->
                normalize df = Raise e) /\
  (forall js is_ e, coerced_j df = Ok js -> coerced df "i" = Ok is_ ->
                    coerced df "z_level" = Raise e -> normalize df = Raise e).
Proof.
  intros Hreq. rewrite (normalize_after_check _ Hreq). repeat split.
  - intros e ->. reflexivity.
  - intros js e -> ->. reflexivity.
  - intros js is_ e -> -> ->. reflexivity.
Qed.

(** X5, witness: text in [z_level] is reported once [j] and [i] are
    accepted. *)
Lemma coercion_order_witness :
  normalize text_z_table
  = Raise (mk_exn ValueError "invalid literal for int() with base 10: 'top'").
Proof.
  refine (proj2 (proj2 (coercion_order text_z_table _))
            [0; 1; 0]%Z [0; 0; 1]%Z _ _ _ _).
  - apply has_required_by_check. reflexivity.
  - reflexivity.
  - reflexivity.
  - reflexivity.
Defined.

Lemma astype_int_blank s :
  Series.is_object s = false -> In NaN s ->
  Series.astype_int s = Raise Series.nonfinite_error.
Proof.
  intros Ho Hin. unfold Series.astype_int. rewrite Ho.
  assert (H : existsb Series.is_nan s = true).
  { apply existsb_exists. exists NaN. split; [exact Hin | reflexivity]. }
  rewrite H. reflexivity.
Qed.

(** X6.  Only [j] may be blank.  In a table with the required columns
    whose [j] column is accepted, a blank cell in a numeric [i] column
    makes [normalize] fail with pandas' [IntCastingNaNError]; so does a
    blank cell in a numeric [z_level] column when [i] is accepted. *)
Theorem blank_index_rejected df js :
  has_required_columns df -> coerced_j df = Ok js ->
  (forall s, lookup_col "i" df = Some s -> Series.is_object s = false ->
             In NaN s -> normalize df = Raise Series.nonfinite_error) /\
  (forall is_ s, coerced df "i" = Ok is_ ->
                 lookup_col "z_level" df = Some s ->
                 Series.is_object s = false -> In NaN s ->
                 normalize df = Raise Series.nonfinite_error).
Proof.
  intros Hreq Hj. rewrite (normalize_after_check _ Hreq), Hj. cbn [bind]. split.
  - intros s Hs Ho Hin. unfold coerced, getitem. rewrite Hs. cbn [bind].
    rewrite (astype_int_blank _ Ho Hin). reflexivity.
  - intros is_ s Hi Hs Ho Hin. rewrite Hi. cbn [bind].
    unfold coerced, getitem. rewrite Hs. cbn [bind].
    rewrite (astype_int_blank _ Ho Hin). reflexivity.
Qed.

(** X6, witness: a blank [i], and a blank [z_level]. *)
Lemma blank_index_rejected_witness :
  normalize blank_i_table = Raise Series.nonfinite_error /\
  normalize blank_z_table = Raise Series.nonfinite_error.
Proof.
  split.
  - refine (proj1 (blank_index_rejected blank_i_table [0%Z] _ _) [NaN] _ _ _).
    + apply has_required_by_check. reflexivity.
    + reflexivity.
    + reflexivity.
    + reflexivity.
    + now left.
  - refine (proj2 (blank_index_rejected blank_z_table [0%Z] _ _)
              [0%Z] [NaN] _ _ _ _).
    + apply has_required_by_check. reflexivity.
    + reflexivity.
    + reflexivity.
    + reflexivity.
    + reflexivity.
    + now left.
Defined.
End ErrorOrder.

Section CachePath.
Local Open Scope Z_scope.

Lemma str_int_inj a b : Py.str_int a = Py.str_int b -> a = b.
Proof.
  unfold Py.str_int. intros H. apply DecimalZ.to_int_inj.
  assert (Hnn : forall z, Z.to_int z <> Decimal.Pos Decimal.Nil /\
                          Z.to_int z <> Decimal.Neg Decimal.Nil).
  { intros [|p|p]; simpl; split; try discriminate;
      intros [= Hp]; exact (DecimalPos.Unsigned.to_uint_nonnil p Hp). }
  destruct (Hnn a) as [Ha1 Ha2]. destruct (Hnn b) as [Hb1 Hb2].
  pose proof (DecimalString.NilZero.isi _ Ha1 Ha2) as Ia.
  pose proof (DecimalString.NilZero.isi _ Hb1 Hb2) as Ib.
  rewrite H in Ia. rewrite Ia in Ib. injection Ib as Ib. exact Ib.
Qed.

Lemma length_append a b :
  String.length (a +:+ b) = (String.length a + String.length b)%nat.
Proof.
  induction a as [|c a IH]; [reflexivity|].
  change (String c a +:+ b) with (String c (a +:+ b)). simpl. now rewrite IH.
Qed.

Lemma append_cancel_r a b c : a +:+ c = b +:+ c -> a = b.
Proof.
  revert b. induction a as [|x a IH]; intros [|y b] H.
  - reflexivity.
  - apply (f_equal String.length) in H.
    rewrite !length_append in H. simpl in H. lia.
  - apply (f_equal String.length) in H.
    rewrite !length_append in H. simpl in H. lia.
  - change (String x (a +:+ c) = String y (b +:+ c)) in H.
    injection H as -> H. f_equal. apply IH, H.
Qed.

Lemma append_cancel_l a b c : a +:+ b = a +:+ c -> b = c.
Proof.
  induction a as [|x a IH]; [trivial|].
  change (String x (a +:+ b) = String x (a +:+ c) -> b = c).
  intros [= H]. auto.
Qed.

Lemma ends_with_sep_last s :
  os.ends_with_sep s
  = match last_char s with Some c => Ascii.eqb c os.sep | None => false end.
Proof.
  induction s as [|c s IH]; [reflexivity|].
  destruct s as [|d s]; [reflexivity|]. exact IH.
Qed.

Lemma processed_dir_last env : last_char (processed_dir env) = Some "d"%char.
Proof.
  unfold processed_dir, os.join. simpl fold_left.
  rewrite join2_last_char by (discriminate || reflexivity). reflexivity.
Qed.

Lemma join2_plain p b :
  p <> "" -> os.ends_with_sep p = false -> os.starts_with_sep b = false ->
  os.join2 p b = p +:+ String os.sep b.
Proof.
  intros Hp He Hb. unfold os.join2. rewrite Hb, He.
  destruct (String.eqb_spec p ""); [congruence|reflexivity].
Qed.

Lemma output_coords_file_eq env f :
  output_coords_file env f
  = processed_dir env +:+ "/coordinates_processed_"
      +:+ Py.str_int (folder_hash env f) +:+ ".csv".
Proof.
  unfold output_coords_file, os.join. simpl fold_left.
  rewrite join2_plain; [reflexivity | | | reflexivity].
  - intros H. pose proof (processed_dir_last env) as Hl. rewrite H in Hl.
    discriminate.
  - rewrite ends_with_sep_last, processed_dir_last. reflexivity.
Qed.

(** X7.  The cache file lies directly in the processed-data directory and
    is called [coordinates_processed_<n>.csv], where [n] is the string hash
    of the folder modulo [2^32]: a number from [0] to [2^32 - 1], also when
    the hash is negative. *)
Theorem cache_path_shape env f :
  exists n,
    n = str_hash env f mod 2 ^ 32 /\ 0 <= n < 2 ^ 32 /\
    output_coords_file env f
    = processed_dir env +:+ "/coordinates_processed_" +:+ Py.str_int n +:+ ".csv" /\
    basename (output_coords_file env f)
    = "coordinates_processed_" +:+ Py.str_int n +:+ ".csv".
Proof.
  exists (folder_hash env f). split; [|split; [|split]].
  - unfold folder_hash. change 4294967295 with (Z.ones 32).
    apply Z.land_ones. lia.
  - apply folder_hash_range.
  - apply output_coords_file_eq.
  - unfold output_coords_file, os.join. simpl fold_left.
    apply basename_join2.
    rewrite !contains_char_app, str_int_no_sep. reflexivity.
Qed.

Example cache_path_negative_hash :
  output_coords_file (mk_env "/home/user" (fun _ => -1)) "/data/scan"
  = "/home/user/.image_stitcher_processed/coordinates_processed_4294967295.csv".
Proof. reflexivity. Qed.

Lemma folder_hash_mod env f :
  folder_hash env f = str_hash env f mod 2 ^ 32.
Proof.
  unfold folder_hash. change 4294967295 with (Z.ones 32).
  apply Z.land_ones. lia.
Qed.

Lemma output_coords_file_inj env f1 f2 :
  output_coords_file env f1 = output_coords_file env f2 ->
  folder_hash env f1 = folder_hash env f2.
Proof.
  rewrite !output_coords_file_eq. intros H.
  apply append_cancel_l, append_cancel_l, append_cancel_r in H.
  apply str_int_inj, H.
Qed.

(** X8.  Within one process, two input folders share their cache file
    exactly when their string hashes agree modulo [2^32]. *)
Theorem cache_path_collides_iff env f1 f2 :
  output_coords_file env f1 = output_coords_file env f2 <->
  str_hash env f1 mod 2 ^ 32 = str_hash env f2 mod 2 ^ 32.
Proof.
  rewrite <- !folder_hash_mod. split.
  - apply output_coords_file_inj.
  - intros H. unfold output_coords_file. rewrite H. reflexivity.
Qed.
End CachePath.

Section ProcessFrame.

Lemma process_Ok_inv env fs f out fs' :
  process_coordinates_file env fs f = (Ok out, fs') ->
  exists df new_df,
    files fs !! input_coords_file f = Some (CsvFile df) /\
    normalize df = Ok new_df /\
    out = output_coords_file env f /\
    fs' = pd.to_csv (os.makedirs fs (processed_dir env)) out new_df.
Proof.
  unfold process_coordinates_file.
  destruct (negb _); [discriminate|].
  destruct (pd.read_csv _ _) as [df|] eqn:Hr; [|discriminate].
  destruct (normalize df) as [new_df|] eqn:Hn; [|discriminate].
  intros [= <- <-]. exists df, new_df. repeat split; try assumption.
  unfold pd.read_csv, os.makedirs in Hr. simpl in Hr.
  destruct (files fs !! input_coords_file f) as [[d|d]|]; try discriminate.
  - injection Hr as ->. reflexivity.
  - destruct (os.is_dir _ _); discriminate.
Qed.



Lemma is_dir_makedirs fs p q :
  p <> q -> os.is_dir (os.makedirs fs q) p = os.is_dir fs p.
Proof.
  intros Hne. unfold os.is_dir, os.makedirs. simpl. apply bool_decide_ext.
  rewrite elem_of_union, elem_of_singleton. intuition congruence.
Qed.

(** The outcome of a run in terms of what the raw path holds. *)
Lemma process_cases env fs f :
  process_coordinates_file env fs f =
    let fs1 := os.makedirs fs (processed_dir env) in
    match files fs !! input_coords_file f with
    | Some (CsvFile df) =>
        match normalize df with
        | Raise e => (Raise e, fs1)
        | Ok new_df =>
            (Ok (output_coords_file env f),
             pd.to_csv fs1 (output_coords_file env f) new_df)
        end
    | Some (JsonFile _) => (Raise (mk_exn ParserError "Error tokenizing data"), fs1)
    | None =>
        if os.is_dir fs (input_coords_file f)
        then (Raise (mk_exn IsADirectoryError
                       ("Is a directory: " +:+ Py.repr (input_coords_file f))), fs1)
        else (Raise (not_found_error (input_coords_file f)), fs1)
    end.
Proof.
  cbv zeta. destruct (files fs !! input_coords_file f) as [[df|d]|] eqn:Hf.
  - apply process_found, Hf.
  - unfold process_coordinates_file.
    rewrite exists_makedirs by apply input_not_processed_dir.
    rewrite (exists_file _ _ _ Hf). simpl negb. cbv iota.
    unfold pd.read_csv. simpl files. rewrite Hf. reflexivity.
  - unfold process_coordinates_file.
    rewrite exists_makedirs by apply input_not_processed_dir.
    unfold os.exists_, os.is_file. rewrite Hf. simpl orb.
    destruct (os.is_dir fs (input_coords_file f)) eqn:Hd; simpl negb; cbv iota.
    + unfold pd.read_csv. simpl files. rewrite Hf.
      rewrite is_dir_makedirs by apply input_not_processed_dir.
      rewrite Hd. reflexivity.
    + reflexivity.
Qed.

(** X10.  Running the normaliser again in the same process, on the file
    system that a first run left, gives the same result and changes
    nothing: neither a success nor a failure is altered by a repetition. *)
Theorem process_idempotent env fs f :
  process_coordinates_file env
    (snd (process_coordinates_file env fs f)) f
  = process_coordinates_file env fs f.
Proof.
  rewrite (process_cases env fs f). cbv zeta.
  destruct (files fs !! input_coords_file f) as [[df|d]|] eqn:Hf.
  - pose proof (rerun_idempotent env fs f df Hf) as H.
    rewrite (process_found _ _ _ _ Hf) in H.
    destruct (normalize df); exact H.
  - cbn [snd]. rewrite process_cases. cbv zeta. simpl files. rewrite Hf.
    rewrite makedirs_twice. reflexivity.
  - destruct (os.is_dir fs (input_coords_file f)) eqn:Hd; cbn [snd];
      rewrite process_cases; cbv zeta; simpl files; rewrite Hf;
      rewrite is_dir_makedirs by apply input_not_processed_dir;
      rewrite Hd, makedirs_twice; reflexivity.
Qed.
End ProcessFrame.

Section FolderSpelling.

Lemma canonical_table_cases env fs f :
  canonical_table env fs f =
    match fst (process_coordinates_file env fs f) with
    | Ok _ =>
        match files fs !! input_coords_file f with
        | Some (CsvFile df) => normalize df
        | _ => Raise (not_found_error (input_coords_file f))
        end
    | Raise e => Raise e
    end.
Proof.
  unfold canonical_table.
  destruct (process_coordinates_file env fs f) as [[out|e] fs'] eqn:H;
    [|reflexivity].
  destruct (process_Ok_inv _ _ _ _ _ H) as (df & new_df & Hf & Hn & -> & ->).
  cbn [fst]. rewrite Hf, Hn. unfold pd.read_csv, pd.to_csv. simpl files.
  rewrite lookup_insert_eq. reflexivity.
Qed.

Lemma fst_process_input env fs f1 f2 :
  input_coords_file f1 = input_coords_file f2 ->
  match fst (process_coordinates_file env fs f1),
        fst (process_coordinates_file env fs f2) with
  | Ok _, Ok _ => True
  | Raise e1, Raise e2 => e1 = e2
  | _, _ => False
  end.
Proof.
  intros H. rewrite !process_cases. cbv zeta. rewrite H.
  destruct (files fs !! input_coords_file f2) as [[df|d]|].
  - destruct (normalize df); simpl; auto.
  - simpl. reflexivity.
  - destruct (os.is_dir fs (input_coords_file f2)); simpl; reflexivity.
Qed.

Lemma canonical_table_input env fs f1 f2 :
  input_coords_file f1 = input_coords_file f2 ->
  canonical_table env fs f1 = canonical_table env fs f2.
Proof.
  intros H. rewrite !canonical_table_cases.
  pose proof (fst_process_input env fs f1 f2 H) as Hp. rewrite H.
  destruct (fst (process_coordinates_file env fs f1)),
    (fst (process_coordinates_file env fs f2)); try contradiction.
  - reflexivity.
  - congruence.
Qed.

Lemma join2_trailing_sep f b :
  f <> "" -> os.ends_with_sep f = false -> os.starts_with_sep b = false ->
  os.join2 (f +:+ "/") b = os.join2 f b.
Proof.
  intros Hf Hs Hb. unfold os.join2. rewrite Hb, Hs.
  assert (He : os.ends_with_sep (f +:+ "/") = true).
  { rewrite ends_with_sep_last, last_char_app by discriminate. reflexivity. }
  rewrite He, orb_true_r.
  destruct (String.eqb_spec f "") as [->|_]; [congruence|]. cbn [orb].
  apply append_assoc.
Qed.

(** X11.  A trailing separator in the folder name changes nothing but the
    name of the cache file: [<folder>/] and [<folder>] denote the same raw
    file and give the same canonical table or the same error, while their
    cache files coincide only if the hashes of the two spellings agree
    modulo [2^32]. *)
Theorem trailing_separator env fs f :
  f <> "" -> os.ends_with_sep f = false ->
  input_coords_file (f +:+ "/") = input_coords_file f /\
  canonical_table env fs (f +:+ "/") = canonical_table env fs f /\
  (output_coords_file env (f +:+ "/") = output_coords_file env f <->
   (str_hash env (f +:+ "/") mod 2 ^ 32 = str_hash env f mod 2 ^ 32)%Z).
Proof.
  intros Hf Hs.
  assert (Hin : input_coords_file (f +:+ "/") = input_coords_file f).
  { unfold input_coords_file, os.join. simpl fold_left.
    rewrite join2_trailing_sep by (assumption || reflexivity). reflexivity. }
  split; [exact Hin|]. split; [apply canonical_table_input, Hin|].
  rewrite <- !folder_hash_mod. split.
  - apply output_coords_file_inj.
  - intros H. unfold output_coords_file. rewrite H. reflexivity.
Qed.

(** X11, witness: [/data/scan/] and [/data/scan]; with the sample hash (the
    length of the string) the two cache files differ. *)
Lemma trailing_separator_witness :
  input_coords_file "/data/scan/" = input_coords_file "/data/scan" /\
  canonical_table sample_env (sample_fs example_table) "/data/scan/"
  = canonical_table sample_env (sample_fs example_table) "/data/scan" /\
  output_coords_file sample_env "/data/scan/"
  <> output_coords_file sample_env "/data/scan".
Proof.
  destruct (trailing_separator sample_env (sample_fs example_table) "/data/scan")
    as (H1 & H2 & H3); [discriminate | reflexivity |].
  split; [exact H1|]. split; [exact H2|].
  intros H. apply H3 in H. vm_compute in H. discriminate.
Defined.
End FolderSpelling.

Section MainFacts.

Lemma getitem_Raise_kind df c e : getitem df c = Raise e -> kind e = KeyError.
Proof.
  unfold getitem. destruct (lookup_col c df); [discriminate|].
  intros [= <-]. reflexivity.
Qed.

Lemma astype_int_Raise_exception s e :
  Series.astype_int s = Raise e -> isinstance_of (kind e) Exception = true.
Proof.
  intros H. destruct (astype_int_Raise _ _ H) as [[-> _]|(c & _ & Hc)].
  - reflexivity.
  - destruct (int_of_object_kind _ _ Hc) as [-> | ->]; reflexivity.
Qed.

Lemma coerced_Raise_exception df c e :
  coerced df c = Raise e -> isinstance_of (kind e) Exception = true.
Proof.
  unfold coerced. destruct (getitem df c) as [s|e'] eqn:Hg; cbn [bind].
  - apply astype_int_Raise_exception.
  - intros [= <-]. rewrite (getitem_Raise_kind _ _ _ Hg). reflexivity.
Qed.

Lemma coerced_j_Raise_exception df e :
  coerced_j df = Raise e -> isinstance_of (kind e) Exception = true.
Proof.
  unfold coerced_j. destruct (getitem df "j") as [s|e'] eqn:Hg; cbn [bind].
  - apply astype_int_Raise_exception.
  - intros [= <-]. rewrite (getitem_Raise_kind _ _ _ Hg). reflexivity.
Qed.

Lemma normalize_Raise_exception df e :
  normalize df = Raise e -> isinstance_of (kind e) Exception = true.
Proof.
  rewrite normalize_eq.
  destruct (check_columns df required_columns) as [[]|e0] eqn:Hc; cbn [bind].
  2:{ intros [= <-].
      destruct (check_columns_Raise _ _ _ Hc) as (_ & c & _ & _ & _ & _ & ->).
      reflexivity. }
  destruct (coerced_j df) as [js|e0] eqn:Hj; cbn [bind];
    [|intros [= <-]; eauto using coerced_j_Raise_exception].
  destruct (coerced df "i") as [is_|e0] eqn:Hi; cbn [bind];
    [|intros [= <-]; eauto using coerced_Raise_exception].
  destruct (coerced df "z_level") as [zs|e0] eqn:Hz; cbn [bind];
    [|intros [= <-]; eauto using coerced_Raise_exception].
  destruct (getitem df "region") as [r|e0] eqn:H1; cbn [bind];
    [|intros [= <-]; rewrite (getitem_Raise_kind _ _ _ H1); reflexivity].
  destruct (getitem df "x (mm)") as [x|e0] eqn:H2; cbn [bind];
    [|intros [= <-]; rewrite (getitem_Raise_kind _ _ _ H2); reflexivity].
  destruct (getitem df "y (mm)") as [y|e0] eqn:H3; cbn [bind];
    [|intros [= <-]; rewrite (getitem_Raise_kind _ _ _ H3); reflexivity].
  destruct (getitem df "z (um)") as [z|e0] eqn:H4; cbn [bind];
    [|intros [= <-]; rewrite (getitem_Raise_kind _ _ _ H4); reflexivity].
  discriminate.
Qed.

Lemma process_Raise_exception env fs f e fs' :
  process_coordinates_file env fs f = (Raise e, fs') ->
  isinstance_of (kind e) Exception = true.
Proof.
  rewrite process_cases. cbv zeta.
  destruct (files fs !! input_coords_file f) as [[df|d]|].
  - destruct (normalize df) as [new_df|e0] eqn:Hn; [discriminate|].
    intros [= <- _]. eauto using normalize_Raise_exception.
  - intros [= <- _]. reflexivity.
  - destruct (os.is_dir fs (input_coords_file f)); intros [= <- _]; reflexivity.
Qed.

(** X12.  When the normaliser fails, [main] prints ["Error: <message>"] on
    standard error and exits with status 1; the parameters are not built
    and the engine is neither constructed nor run, no file has been
    written, and [--params-json] plays no part: the folder normalised is
    always the one of [--input-folder]. *)
Theorem main_normalization_failure (E : Engine) env args fs e fs1 :
  process_coordinates_file env fs (args_input_folder args) = (Raise e, fs1) ->
  main E env args fs
  = (Exited 1, mk_world fs1 ["Error: " +:+ message e] None) /\
  files fs1 = files fs.
Proof.
  intros H. split.
  - unfold main, main_body. rewrite H.
    rewrite (process_Raise_exception _ _ _ _ _ H). reflexivity.
  - rewrite (process_raise _ _ _ _ _ H). reflexivity.
Qed.

(** X12, witness: no [coordinates.csv] under the folder of the command
    line. *)
Lemma main_normalization_failure_witness :
  main counting_engine sample_env sample_args empty_fs
  = (Exited 1,
     mk_world (E := counting_engine)
       (os.makedirs empty_fs (processed_dir sample_env))
       ["Error: Coordinates file not found: /data/scan/0/coordinates.csv"]
       None).
Proof.
  refine (proj1 (main_normalization_failure counting_engine sample_env
                   sample_args empty_fs
                   (not_found_error (input_coords_file "/data/scan"))
                   (os.makedirs empty_fs (processed_dir sample_env)) _)).
  apply process_missing. vm_compute. reflexivity.
Defined.

Lemma main_success (E : Engine) env args fs out fs1 params st st' fs2 :
  process_coordinates_file env fs (args_input_folder args) = (Ok out, fs1) ->
  create_params fs1 args = Ok params ->
  construct E params fs1 = Ok st ->
  run E st fs1 = (Ok tt, st', fs2) ->
  main E env args fs = (Returned, mk_world fs2 [] (Some st')).
Proof.
  intros Hp Hc Hk Hr. unfold main, main_body.
  rewrite Hp, Hc, Hk, Hr. reflexivity.
Qed.

(** X13.  [main] returns normally exactly when all four steps succeed: the
    normaliser wrote the cache file, the parameters were accepted, the
    engine was constructed with them, and its one call of [run], on the
    file system holding the cache file, succeeded.  Nothing is then written
    on standard error and the file system is the one that [run] left. *)
Theorem main_returns_iff (E : Engine) env args fs :
  fst (main E env args fs) = Returned <->
  exists out fs1 params st st' fs2,
    process_coordinates_file env fs (args_input_folder args) = (Ok out, fs1) /\
    create_params fs1 args = Ok params /\
    construct E params fs1 = Ok st /\
    run E st fs1 = (Ok tt, st', fs2) /\
    main E env args fs = (Returned, mk_world fs2 [] (Some st')).
Proof.
  split.
  - unfold main, main_body.
    destruct (process_coordinates_file env fs (args_input_folder args))
      as [[out|e] fs1] eqn:Hp.
    2:{ destruct (isinstance_of (kind e) Exception); discriminate. }
    destruct (create_params fs1 args) as [params|e] eqn:Hc.
    2:{ destruct (isinstance_of (kind e) Exception); discriminate. }
    destruct (construct E params fs1) as [st|e] eqn:Hk.
    2:{ destruct (isinstance_of (kind e) Exception); discriminate. }
    destruct (run E st fs1) as [[[[]|e] st'] fs2] eqn:Hr.
    2:{ destruct (isinstance_of (kind e) Exception); discriminate. }
    intros _. exists out, fs1, params, st, st', fs2.
    repeat split; reflexivity || assumption.
  - intros (out & fs1 & params & st & st' & fs2 & _ & _ & _ & _ & ->).
    reflexivity.
Qed.

Example main_counting_engine :
  main counting_engine sample_env sample_args (sample_fs example_table)
  = (Returned,
     mk_world (E := counting_engine)
       (snd (process_coordinates_file sample_env (sample_fs example_table)
               "/data/scan"))
       [] (Some 1%nat)).
Proof.
  refine (main_success counting_engine sample_env sample_args
            (sample_fs example_table)
            (output_coords_file sample_env "/data/scan")
            (snd (process_coordinates_file sample_env (sample_fs example_table)
                    "/data/scan"))
            (StitchingParameters.mk "/data/scan" StitchingParameters.OmeZarr
               false false None 0 "Unidirectional" false false false)
            0%nat 1%nat
            (snd (process_coordinates_file sample_env (sample_fs example_table)
                    "/data/scan")) _ _ _ _).
  - rewrite (process_found sample_env _ "/data/scan" example_table)
      by (vm_compute; reflexivity).
    reflexivity.
  - vm_compute. reflexivity.
  - reflexivity.
  - reflexivity.
Qed.

(** X14.  [run] is not called unless the engine was constructed: when the
    parameters are refused or the constructor raises, after a successful
    normalisation, [main] ends with that error (status 1 and the message
    for an [Exception]), the engine has not run, and the cache file that
    the normaliser wrote stays in place. *)
Theorem main_failure_before_run (E : Engine) env args fs out fs1 e :
  process_coordinates_file env fs (args_input_folder args) = (Ok out, fs1) ->
  (create_params fs1 args = Raise e \/
   exists params, create_params fs1 args = Ok params /\
                  construct E params fs1 = Raise e) ->
  main E env args fs =
    (if isinstance_of (kind e) Exception
     then (Exited 1, mk_world fs1 ["Error: " +:+ message e] None)
     else (Propagated e, mk_world fs1 [] None)) /\
  is_Some (files fs1 !! out).
Proof.
  intros Hp Hc. split.
  - unfold main, main_body. rewrite Hp.
    destruct Hc as [Hc|(params & Hc & Hk)].
    + rewrite Hc. reflexivity.
    + rewrite Hc, Hk. reflexivity.
  - destruct (process_Ok_inv _ _ _ _ _ Hp) as (df & new_df & _ & _ & -> & ->).
    simpl. rewrite lookup_insert_eq. eauto.
Qed.

(** X14, witness: an engine whose constructor raises. *)
Lemma main_failure_before_run_witness :
  main (broken_engine (mk_exn RuntimeError "no GPU")) sample_env sample_args
       (sample_fs example_table)
  = (Exited 1,
     mk_world (E := broken_engine (mk_exn RuntimeError "no GPU"))
       (snd (process_coordinates_file sample_env (sample_fs example_table)
               "/data/scan"))
       ["Error: no GPU"] None).
Proof.
  refine (proj1 (main_failure_before_run
            (broken_engine (mk_exn RuntimeError "no GPU")) sample_env sample_args
            (sample_fs example_table)
            (output_coords_file sample_env "/data/scan")
            (snd (process_coordinates_file sample_env (sample_fs example_table)
                    "/data/scan"))
            (mk_exn RuntimeError "no GPU") _ _)).
  - rewrite (process_found sample_env _ "/data/scan" example_table)
      by (vm_compute; reflexivity).
    reflexivity.
  - right.
    exists (StitchingParameters.mk "/data/scan" StitchingParameters.OmeZarr
              false false None 0 "Unidirectional" false false false).
    split; [vm_compute; reflexivity | reflexivity].
Defined.


End MainFacts.

Section CreateParams.

(** X16.  [--params-json] decides where the parameters come from.  With a
    non-empty path, the other arguments of the command line are ignored;
    with no path, or with the empty path, the ten values of the command
    line are used and no document is read. *)
Theorem params_json_decides fs a1 a2 :
  (forall p, p <> "" ->
     args_params_json a1 = Some p -> args_params_json a2 = Some p ->
     create_params fs a1 = create_params fs a2) /\
  (params_dict_of a1 = params_dict_of a2 ->
   truthy (args_params_json a1) = None ->
   truthy (args_params_json a2) = None ->
   create_params fs a1 = create_params fs a2) /\
  create_params fs (with_params_json a1 (Some ""))
  = create_params fs (with_params_json a1 None).
Proof.
  split; [|split].
  - intros p Hp H1 H2. unfold create_params.
    rewrite H1, H2, (truthy_Some _ Hp). reflexivity.
  - intros Hd H1 H2. unfold create_params. rewrite H1, H2, Hd. reflexivity.
  - reflexivity.
Qed.
End CreateParams.

Section FovStability.
Local Open Scope Z_scope.

Lemma max_from_app m s t :
  Series.max_from m (s ++ t) = Series.max_from (Series.max_from m s) t.
Proof.
  revert m. induction s as [|z s IH]; intros m; [reflexivity|].
  simpl. apply IH.
Qed.

Lemma max_from_le m t :
  Forall (fun z => z <= m) t -> Series.max_from m t = m.
Proof.
  revert m. induction t as [|z t IH]; intros m H; [reflexivity|].
  inversion H as [|? ? Hz Ht]; subst. simpl.
  rewrite Z.max_l by exact Hz. apply IH, Ht.
Qed.

Lemma zip_with_app {A B C} (f : A -> B -> C) l1 l2 l1' l2' :
  length l1 = length l1' ->
  zip_with f (l1 ++ l2) (l1' ++ l2') = zip_with f l1 l1' ++ zip_with f l2 l2'.
Proof.
  revert l1'. induction l1 as [|a l1 IH]; intros [|b l1'] H;
    try discriminate; [reflexivity|].
  simpl. f_equal. apply IH. now injection H.
Qed.

(** X17.  Tiles added at the end of the table, in columns that were
    already scanned ([j] not above the largest [j] so far), leave the [fov]
    of every earlier row unchanged: [max_j] stays the same. *)
Theorem fov_stable_under_append is_ js is_' js' M :
  length is_ = length js ->
  Series.max js = Some M ->
  Forall (fun b => b <= M) js' ->
  max_j_of (js ++ js') = max_j_of js /\
  fov_column (is_ ++ is_') (js ++ js')
  = fov_column is_ js ++ zip_with (fov_of (max_j_of js)) is_' js'.
Proof.
  intros Hl HM Hle.
  assert (Hmax : Series.max (js ++ js') = Some M).
  { destruct js as [|z js]; [discriminate|]. simpl in *.
    injection HM as HM. rewrite max_from_app, HM, max_from_le by exact Hle.
    reflexivity. }
  assert (Hmj : max_j_of (js ++ js') = max_j_of js).
  { unfold max_j_of. rewrite Hmax, HM. reflexivity. }
  split; [exact Hmj|].
  unfold fov_column. rewrite Hmj. apply zip_with_app, Hl.
Qed.

(** X17, witness: a fourth tile at [(1, 1)] after the three of the
    specification's example. *)
Lemma fov_stable_under_append_witness :
  fov_column ([0; 0; 1] ++ [1]) ([0; 1; 0] ++ [1])
  = fov_column [0; 0; 1] [0; 1; 0] ++ [Int 3].
Proof.
  refine (proj2 (fov_stable_under_append [0; 0; 1] [0; 1; 0] [1] [1] 1 _ _ _)).
  - reflexivity.
  - reflexivity.
  - constructor; [lia | constructor].
Defined.
End FovStability.

Section RegionLabels.

Lemma coerced_setitem_other df c c' v :
  String.eqb c c' = false -> coerced (setitem df c' v) c = coerced df c.
Proof.
  intros H. unfold coerced. rewrite getitem_setitem, H. reflexivity.
Qed.

(** X18.  The numbering takes no account of regions: [max_j] is one number
    for the whole table.  Replacing the [region] column by any other labels
    leaves [normalize] successful and the [fov] column the same; only the
    [region] column of the result changes. *)
Theorem fov_ignores_region df new_df labels :
  normalize df = Ok new_df ->
  exists new_df',
    normalize (setitem df "region" labels) = Ok new_df' /\
    lookup_col "fov" new_df' = lookup_col "fov" new_df /\
    lookup_col "region" new_df' = Some labels /\
    (forall c, c <> "region" -> lookup_col c new_df' = lookup_col c new_df).
Proof.
  intros Hn.
  assert (Hreq : has_required_columns df).
  { refine (proj1 (check_columns_Ok df required_columns) _).
    unfold normalize in Hn.
    destruct (check_columns df required_columns) as [[]|];
      [reflexivity|discriminate]. }
  destruct (normalize_Ok_inv _ _ Hn)
    as (js & is_ & zs & r & x & y & z & Hj & Hi & Hz & Hr & Hx & Hy & Hu & ->).
  exists (canonical labels (fov_column is_ js) (map Int zs) x y z). split.
  - rewrite normalize_after_check.
    + unfold coerced_j. rewrite !coerced_setitem_other by reflexivity.
      rewrite !getitem_setitem. cbn [String.eqb Ascii.eqb Bool.eqb].
      fold (coerced_j df). rewrite Hj, Hi, Hz. cbn [bind].
      apply getitem_Ok in Hx, Hy, Hu. rewrite Hx, Hy, Hu. reflexivity.
    + intros c Hc. unfold has_column. rewrite lookup_setitem.
      destruct (String.eqb c "region"); [reflexivity|]. apply Hreq, Hc.
  - split; [reflexivity|]. split; [reflexivity|].
    intros c Hc. unfold canonical. cbn [lookup_col].
    destruct (String.eqb_spec c "region"); [contradiction|reflexivity].
Qed.

(** X18, witness: the three tiles of the example put in three regions. *)
Lemma fov_ignores_region_witness :
  exists new_df',
    normalize (setitem example_table "region" [Str "A1"; Str "B2"; Str "C3"])
    = Ok new_df' /\
    lookup_col "fov" new_df' = Some [Int 0; Int 1; Int 2] /\
    lookup_col "region" new_df' = Some [Str "A1"; Str "B2"; Str "C3"].
Proof.
  destruct (fov_ignores_region example_table
              (canonical [Str "A1"; Str "A1"; Str "A1"] [Int 0; Int 1; Int 2]
                 [Int 0; Int 0; Int 0] [Flt 1; Flt 2; Flt 1]
                 [Flt 1; Flt 1; Flt 2] [Int 0; Int 0; Int 0])
              [Str "A1"; Str "B2"; Str "C3"] eq_refl)
    as (new_df' & H1 & H2 & H3 & _).
  exists new_df'. split; [exact H1|]. split; [exact H2 | exact H3].
Defined.
End RegionLabels.
